(** * GlobeTrek travel planner: renderer, image extractor, flight tools, session

    A shallow embedding of the Python sources
      - [globe.py]  ([get_pdf_download_link], [construct_query]),
      - [test.py]   ([display_images_from_markdown], the renderer with [img]),
      - [main.py]   ([AmadeusFlightToolsSDK], [construct_query], the
                     generate-plan handler and the travel-plan display loop).

    Python [str] values are modelled by their UTF-8 encoding, one [ascii]
    per byte.  Third-party libraries (markdown, BeautifulSoup, requests,
    PIL, streamlit, amadeus, the agent) are parameters of the sections that
    use them; what this development fixes is the code written in the
    repository. *)

From Stdlib Require Import List String Ascii Bool Arith ZArith Lia.
From Stdlib Require Import Numbers.DecimalString.
Import ListNotations.

Open Scope string_scope.
Open Scope list_scope.

(* ------------------------------------------------------------------ *)
(** ** Python strings                                                  *)
(* ------------------------------------------------------------------ *)

Module Py.

(** ["\n"] *)
Definition nl : string := String "010"%char "".

(** [bool(s)] for a [str]. *)
Definition truthy (s : string) : bool := negb (s =? "").

(** [bool(x)] for a value that is a [str] or [None]. *)
Definition truthy_opt (x : option string) : bool :=
  match x with
  | Some s => truthy s
  | None => false
  end.

(** [s[len(p):]] when [s.startswith(p)]. *)
Fixpoint strip_prefix (p s : string) : option string :=
  match p, s with
  | "", _ => Some s
  | String a p', String b s' =>
      if (a =? b)%char then strip_prefix p' s' else None
  | String _ _, "" => None
  end.

(** [s.split('\n')] *)
Fixpoint split_newline (s : string) : list string :=
  match s with
  | "" => [""]
  | String c s' =>
      if (c =? "010")%char then "" :: split_newline s'
      else match split_newline s' with
           | l :: ls => String c l :: ls
           | [] => [String c ""]
           end
  end.

(** *** Whitespace, as [str.isspace] sees it

    ASCII: TAB..CR, FS..US and SPACE.  Beyond ASCII: U+0085, U+00A0,
    U+1680, U+2000..U+200A, U+2028, U+2029, U+202F, U+205F, U+3000, here in
    their UTF-8 encodings. *)

Definition isspace1 (a : ascii) : bool :=
  let n := nat_of_ascii a in
  (((9 <=? n) && (n <=? 13)) || ((28 <=? n) && (n <=? 32)))%nat.

Definition isspace2 (a b : ascii) : bool :=
  ((nat_of_ascii a =? 194) &&
   ((nat_of_ascii b =? 133) || (nat_of_ascii b =? 160)))%nat.

Definition isspace3 (a b c : ascii) : bool :=
  let x := nat_of_ascii a in
  let y := nat_of_ascii b in
  let z := nat_of_ascii c in
  (((x =? 225) && (y =? 154) && (z =? 128)) ||
   ((x =? 226) && (y =? 128) &&
      (((128 <=? z) && (z <=? 138)) || (z =? 168) || (z =? 169) || (z =? 175))) ||
   ((x =? 226) && (y =? 129) && (z =? 159)) ||
   ((x =? 227) && (y =? 128) && (z =? 128)))%nat.

(** [s.lstrip()] *)
Fixpoint lstrip (s : string) : string :=
  match s with
  | "" => ""
  | String a r1 =>
      if isspace1 a then lstrip r1
      else match r1 with
           | "" => s
           | String b r2 =>
               if isspace2 a b then lstrip r2
               else match r2 with
                    | "" => s
                    | String c r3 => if isspace3 a b c then lstrip r3 else s
                    end
           end
  end.

Fixpoint rev_append (s acc : string) : string :=
  match s with
  | "" => acc
  | String c s' => rev_append s' (String c acc)
  end.

Definition rev (s : string) : string := rev_append s "".

(** [lstrip] on the reversed string: a two- or three-byte whitespace
    character is met last byte first. *)
Fixpoint lstrip_rev (s : string) : string :=
  match s with
  | "" => ""
  | String a r1 =>
      if isspace1 a then lstrip_rev r1
      else match r1 with
           | "" => s
           | String b r2 =>
               if isspace2 b a then lstrip_rev r2
               else match r2 with
                    | "" => s
                    | String c r3 => if isspace3 c b a then lstrip_rev r3 else s
                    end
           end
  end.

(** [s.rstrip()] *)
Definition rstrip (s : string) : string := rev (lstrip_rev (rev s)).

(** [s.strip()] *)
Definition strip (s : string) : string := rstrip (lstrip s).

(** [str(n)] for a non-negative [int]. *)
Definition str_of_nat (n : nat) : string :=
  NilZero.string_of_uint (Nat.to_uint n).

(** [sep.join(l)] *)
Fixpoint join (sep : string) (l : list string) : string :=
  match l with
  | [] => ""
  | [x] => x
  | x :: l' => x ++ sep ++ join sep l'
  end.

(** [s.replace(old, new)]: the non-overlapping occurrences of [old], found
    left to right, are replaced.  [fuel] bounds the number of positions
    visited; [replace] gives one more than the length of [s]. *)
Fixpoint replace_from (fuel : nat) (old new s : string) : string :=
  match fuel with
  | O => s
  | S fuel' =>
      match strip_prefix old s with
      | Some rest => new ++ replace_from fuel' old new rest
      | None =>
          match s with
          | "" => ""
          | String c s' => String c (replace_from fuel' old new s')
          end
      end
  end.

(** With an empty [old], Python puts [new] before every character and at
    the end. *)
Fixpoint intersperse (new s : string) : string :=
  match s with
  | "" => new
  | String c s' => new ++ String c (intersperse new s')
  end.

Definition replace (old new s : string) : string :=
  if old =? "" then intersperse new s
  else replace_from (S (String.length s)) old new s.

End Py.

(* ------------------------------------------------------------------ *)
(** ** The two regular expressions of [test.py]                        *)
(* ------------------------------------------------------------------ *)

Module Re.

Definition is_newline (c : ascii) : bool := (c =? "010")%char.

(** [(.*?)\)] : the lazy group takes one more character (never a newline)
    each time the closing parenthesis does not follow. *)
Fixpoint lazy_rparen (s : string) : option (string * string) :=
  match Py.strip_prefix ")" s with
  | Some rest => Some ("", rest)
  | None =>
      match s with
      | "" => None
      | String c s' =>
          if is_newline c then None
          else match lazy_rparen s' with
               | Some (g, rest) => Some (String c g, rest)
               | None => None
               end
      end
  end.

(** [(.*?)\]\((.*?)\)] : where ["]("] follows, the rest of the pattern is
    tried; when it fails, or ["]("] does not follow, the first group grows
    by one character. *)
Fixpoint lazy_alt (s : string) : option (string * string * string) :=
  match
    match Py.strip_prefix "](" s with
    | Some s2 => lazy_rparen s2
    | None => None
    end
  with
  | Some (url, rest) => Some ("", url, rest)
  | None =>
      match s with
      | "" => None
      | String c s' =>
          if is_newline c then None
          else match lazy_alt s' with
               | Some (alt, url, rest) => Some (String c alt, url, rest)
               | None => None
               end
      end
  end.

(** A match object of [r'!\[(.*?)\]\((.*?)\)']: [group(1)] and [group(2)]. *)
Record image_match : Type := mk_match { alt_text : string; image_url : string }.

(** [match.group(0)] *)
Definition group0 (m : image_match) : string :=
  "![" ++ alt_text m ++ "](" ++ image_url m ++ ")".

(** The pattern anchored at the start of [s]: the match and what follows it. *)
Definition match_image (s : string) : option (image_match * string) :=
  match Py.strip_prefix "![" s with
  | Some s1 =>
      match lazy_alt s1 with
      | Some (alt, url, rest) => Some (mk_match alt url, rest)
      | None => None
      end
  | None => None
  end.

(** [re.finditer(r'!\[(.*?)\]\((.*?)\)', s)]: leftmost matches, each search
    resuming where the previous match ended. *)
Fixpoint finditer_from (fuel : nat) (s : string) : list image_match :=
  match fuel with
  | O => []
  | S fuel' =>
      match match_image s with
      | Some (m, rest) => m :: finditer_from fuel' rest
      | None =>
          match s with
          | "" => []
          | String _ s' => finditer_from fuel' s'
          end
      end
  end.

Definition finditer (s : string) : list image_match :=
  finditer_from (S (String.length s)) s.

(** [(.*?) for] *)
Fixpoint lazy_for (s : string) : option string :=
  match Py.strip_prefix " for" s with
  | Some _ => Some ""
  | None =>
      match s with
      | "" => None
      | String c s' =>
          if is_newline c then None
          else match lazy_for s' with
               | Some g => Some (String c g)
               | None => None
               end
      end
  end.

(** [re.search(r'Plan a trip to (.*?) for', s)], then [group(1)]. *)
Fixpoint search_destination (s : string) : option string :=
  match
    match Py.strip_prefix "Plan a trip to " s with
    | Some r => lazy_for r
    | None => None
    end
  with
  | Some g => Some g
  | None =>
      match s with
      | "" => None
      | String _ s' => search_destination s'
      end
  end.

End Re.

(* ------------------------------------------------------------------ *)
(** ** The parsed HTML tree (BeautifulSoup)                            *)
(* ------------------------------------------------------------------ *)

Module Html.

#[warnings="-register-all"]
Inductive node : Type :=
| Tag (name : string) (attrs : list (string * string)) (children : list node)
| NavigableString (s : string).

(** [element.name]; a string node has none. *)
Definition name_of (n : node) : string :=
  match n with
  | Tag nm _ _ => nm
  | NavigableString _ => ""
  end.

(** [element.text]: the strings below the element, concatenated in
    document order. *)
Fixpoint text (n : node) : string :=
  match n with
  | Tag _ _ children => String.concat "" (map text children)
  | NavigableString s => s
  end.

(** [element.get(key)] *)
Definition get (key : string) (n : node) : option string :=
  match n with
  | Tag _ attrs _ =>
      match find (fun kv => fst kv =? key) attrs with
      | Some kv => Some (snd kv)
      | None => None
      end
  | NavigableString _ => None
  end.

Definition name_in (names : list string) (nm : string) : bool :=
  existsb (String.eqb nm) names.

(** The descendants-or-self of [n] whose name is listed, in document
    order (a tag before what it contains). *)
Fixpoint find_all_in (names : list string) (n : node) : list node :=
  match n with
  | Tag nm _ children =>
      (if name_in names nm then [n] else [])
        ++ flat_map (find_all_in names) children
  | NavigableString _ => []
  end.

(** [soup.find_all(names)], the soup given by its top-level nodes. *)
Definition find_all (names : list string) (soup : list node) : list node :=
  flat_map (find_all_in names) soup.

End Html.

(* ------------------------------------------------------------------ *)
(** ** reportlab flowables                                             *)
(* ------------------------------------------------------------------ *)

Module Pdf.

(** The paragraph styles [get_pdf_download_link] sets up, under the names
    of its local variables; [footer_style] is the anonymous
    [ParagraphStyle('Footer', ...)] of the last paragraph. *)
Inductive style : Type :=
| title_style | heading_style | subheading_style | normal_style
| section_style | day_style | bullet_style | footer_style.

(** [Spacer(width, h*inch)] keeps [h] in hundredths of an inch;
    [Image(buffer, width, height)] keeps the PNG bytes and its size in
    points. *)
Inductive flowable : Type :=
| Paragraph (text : string) (st : style)
| Spacer (width : nat) (height : nat)
| Image (png : string) (width height : Z).

End Pdf.

(* ------------------------------------------------------------------ *)
(** ** [globe.py]                                                      *)
(* ------------------------------------------------------------------ *)

Module Globe.
Import Pdf.

Definition footer_text : string :=
  "Generated by GlobeTrek - Your AI Travel Companion".

Section Renderer.

(** [markdown.markdown], [BeautifulSoup(html, 'html.parser')] (its
    top-level nodes), [doc.build] followed by [buffer.getvalue()], and
    [base64.b64encode(...).decode()]. *)
Variable markdown_markdown : string -> string.
Variable BeautifulSoup : string -> list Html.node.
Variable doc_build : list flowable -> string.
Variable b64encode : string -> string.

(** The body of the loop over [soup.find_all([...])]. *)
Definition process_element (elements : list flowable) (element : Html.node)
  : list flowable :=
  let name := Html.name_of element in
  if name =? "h1" then
    elements ++ [Paragraph (Html.text element) heading_style; Spacer 1 10]
  else if name =? "h2" then
    elements ++ [Paragraph (Html.text element) section_style; Spacer 1 10]
  else if name =? "h3" then
    elements ++ [Paragraph (Html.text element) day_style]
  else if name =? "p" then
    elements ++ [Paragraph (Html.text element) normal_style; Spacer 1 5]
  else if name =? "ul" then
    elements
  else if name =? "li" then
    elements ++ [Paragraph ("• " ++ Html.text element) bullet_style]
  else elements.

(** The body of the loop over [markdown_text.split('\n')]. *)
Definition add_line (elements : list flowable) (line : string)
  : list flowable :=
  if Py.truthy (Py.strip line) then
    elements ++ [Paragraph line normal_style; Spacer 1 5]
  else elements.

(** The list handed to [doc.build]. *)
Definition pdf_elements (markdown_text destination travel_dates : string)
  : list flowable :=
  let elements :=
    [Paragraph ("Travel Itinerary to " ++ destination) title_style;
     Spacer 1 20;
     Paragraph ("Travel Dates: " ++ travel_dates) subheading_style;
     Spacer 1 30] in
  let html_content := markdown_markdown markdown_text in
  let soup := BeautifulSoup html_content in
  let elements :=
    fold_left process_element
      (Html.find_all ["h1"; "h2"; "h3"; "p"; "ul"; "li"] soup) elements in
  let elements :=
    if (List.length elements <=? 4)%nat then
      fold_left add_line (Py.split_newline markdown_text) elements
    else elements in
  elements ++ [Spacer 1 50; Paragraph footer_text footer_style].

Definition get_pdf_download_link
  (markdown_text filename destination travel_dates : string) : string :=
  let pdf_data := doc_build (pdf_elements markdown_text destination travel_dates) in
  let b64 := b64encode pdf_data in
  ("<a href=" ++ String "034" "data:application/pdf;base64," ++ b64
    ++ String "034" " download=" ++ String "034" filename
    ++ String "034" " class=" ++ String "034" "download-button"
    ++ String "034" ">Download PDF Itinerary</a>")%string.

End Renderer.

Section Form.

(** [datetime.date] and its [strftime('%b %d, %Y')]. *)
Variable date : Type.
Variable strftime : date -> string.

Local Open Scope string_scope.

Record form : Type := mk_form {
  origin_city : string;
  destination : string;
  start_date : date;
  end_date : date;
  travelers : nat;
  budget_option : string;
  interests : list string;
  accommodation : string;
  additional_notes : string
}.

Definition budget_map : list (string * string) :=
  [("Budget - Up to ₹50,000", "under ₹50,000");
   ("Mid-range - ₹50,000 to ₹1,50,000", "₹50,000-1,50,000");
   ("Luxury - Above ₹1,50,000", "over ₹1,50,000")].

(** [d.get(key, default)] *)
Definition dict_get (d : list (string * string)) (key default : string)
  : string :=
  match find (fun kv => fst kv =? key) d with
  | Some kv => snd kv
  | None => default
  end.

Definition construct_query (f : form) : string :=
  if negb (Py.truthy (destination f)) then ""
  else
    let travel_dates :=
      strftime (start_date f) ++ " to " ++ strftime (end_date f) in
    let budget_str := dict_get budget_map (budget_option f) "flexible" in
    let query :=
      "Plan a trip to " ++ destination f ++ " for "
        ++ Py.str_of_nat (travelers f) ++ " travelers" in
    let query :=
      if Py.truthy (origin_city f)
      then query ++ " departing from " ++ origin_city f else query in
    let query :=
      query ++ " from " ++ travel_dates ++ " with a " ++ budget_str
        ++ " budget in INR" in
    let query :=
      match interests f with
      | [] => query
      | _ :: _ =>
          query ++ ". We're interested in: " ++ Py.join ", " (interests f)
      end in
    let query :=
      if negb (accommodation f =? "Any")
      then query ++ ". We prefer staying in " ++ accommodation f else query in
    let query :=
      if Py.truthy (additional_notes f)
      then query ++ ". Additional notes: " ++ additional_notes f else query in
    query ++ ". Please include flight options, accommodations, daily activities, and all costs in INR. Use Exa to search for flight information, prices, and schedules.".

End Form.

Arguments mk_form {date} _ _ _ _ _ _ _ _ _.
Arguments destination {date} _.

End Globe.

(* ------------------------------------------------------------------ *)
(** ** [test.py]                                                       *)
(* ------------------------------------------------------------------ *)

Module TestApp.
Import Pdf.

(** What the calls to the outside leave behind, in the order they are made:
    the image search request ([params] of [requests.get]), an image put on
    the page by [st.image], a message of [st.warning]. *)
Inductive effect : Type :=
| requests_get (url q tbm api_key : string)
| st_image (image caption : string)
| st_warning (msg : string).

(** One entry of [results['images_results']]: its ['original'] field. *)
Record img_result : Type := mk_img_result { original : option string }.

(** [requests.get(...)] followed by [response.json()]: an exception
    ([str(e)]), or the decoded object, with its ['images_results'] list when
    it has that key. *)
Inductive search_outcome : Type :=
| search_raised (e : string)
| search_json (images_results : option (list img_result)).

Section ImageExtractor.

(** The environment variable [SERPAPI_API_KEY]; the image search; whether
    [st.image(image, caption)] puts the image on the page ([true]) or
    raises ([false]). *)
Variable serpapi_api_key : option string.
Variable serpapi_search : string -> string -> search_outcome.
Variable st_image_ok : string -> string -> bool.

(** The body of the loop over [enumerate(results['images_results'][:3])]. *)
Definition show_result (destination : string) (trace : list effect)
  (ir : nat * img_result) : list effect :=
  match original (snd ir) with
  | Some img_url =>
      if Py.truthy img_url then
        let caption :=
          (destination ++ " attraction " ++ Py.str_of_nat (fst ir + 1))%string in
        if st_image_ok img_url caption
        then trace ++ [st_image img_url caption]
        else trace
      else trace
  | None => trace
  end.

(** The [try] block that looks for images of the destination. *)
Definition search_images (destination api_key : string) : list effect :=
  let search_query := (destination ++ " travel attractions")%string in
  let request :=
    requests_get "https://serpapi.com/search" search_query "isch" api_key in
  match serpapi_search search_query api_key with
  | search_raised e =>
      [request; st_warning ("Couldn't fetch additional images: " ++ e)]
  | search_json None => [request]
  | search_json (Some images_results) =>
      let first3 := firstn 3 images_results in
      fold_left (show_result destination)
        (combine (seq 0 (List.length first3)) first3) [request]
  end.

(** The body of the loop over the image tags of the original text. *)
Definition process_match (st : list effect * string) (m : Re.image_match)
  : list effect * string :=
  let alt_text := Re.alt_text m in
  let image_url := Re.image_url m in
  let caption := if Py.truthy alt_text then alt_text else "Travel Image" in
  if st_image_ok image_url caption
  then (fst st ++ [st_image image_url caption],
        Py.replace (Re.group0 m) "" (snd st))
  else st.

(** Returns the calls made and the text handed back. *)
Definition display_images_from_markdown
  (markdown_text : string) (destination : option string)
  : list effect * string :=
  let destination :=
    if negb (Py.truthy_opt destination)
    then Re.search_destination markdown_text
    else destination in
  let image_matches := Re.finditer markdown_text in
  let trace :=
    match image_matches, destination, serpapi_api_key with
    | [], Some d, Some k =>
        if Py.truthy d && Py.truthy k then search_images d k else []
    | _, _, _ => []
    end in
  let image_matches := Re.finditer markdown_text in
  fold_left process_match image_matches (trace, markdown_text).

End ImageExtractor.

(** What the [try] block of an [img] tag comes to: [requests.get] raises
    ([str(e)]), or answers with a status code; with status 200 the body is
    decoded and re-encoded as PNG, which raises, or gives the PNG bytes
    and the height [int(float(h) * (400 / float(w)))]. *)
Inductive decode_outcome : Type :=
| decode_raised (e : string)
| decoded (png : string) (height : Z).

Inductive fetch_outcome : Type :=
| fetch_raised (e : string)
| fetch_response (status_code : Z) (body : decode_outcome).

Section Renderer.

Variable markdown_markdown : string -> string.
Variable BeautifulSoup : string -> list Html.node.
Variable doc_build : list flowable -> string.
Variable b64encode : string -> string.
(** [requests.get(img_url, stream=True, timeout=5)] and the decoding,
    for the value of [element.get('src')]. *)
Variable fetch_image : option string -> fetch_outcome.

(** The flowables so far and the [st.warning] messages so far. *)
Definition state : Type := (list flowable * list string)%type.

(** The body of the loop over [soup.find_all([...])]. *)
Definition process_element (st : state) (element : Html.node) : state :=
  let elements := fst st in
  let warnings := snd st in
  let name := Html.name_of element in
  if name =? "h1" then
    (elements ++ [Paragraph (Html.text element) heading_style; Spacer 1 10],
     warnings)
  else if name =? "h2" then
    (elements ++ [Paragraph (Html.text element) section_style; Spacer 1 10],
     warnings)
  else if name =? "h3" then
    (elements ++ [Paragraph (Html.text element) day_style], warnings)
  else if name =? "p" then
    (elements ++ [Paragraph (Html.text element) normal_style; Spacer 1 5],
     warnings)
  else if name =? "ul" then
    st
  else if name =? "li" then
    (elements ++ [Paragraph ("• " ++ Html.text element) bullet_style],
     warnings)
  else if name =? "img" then
    let img_url := Html.get "src" element in
    match fetch_image img_url with
    | fetch_response status_code body =>
        if (status_code =? 200)%Z then
          match body with
          | decoded png height =>
              let max_width := 400%Z in
              (elements ++ [Image png max_width height], warnings)
          | decode_raised e =>
              (elements,
               warnings ++ [("Couldn't include image in PDF: " ++ e)%string])
          end
        else st
    | fetch_raised e =>
        (elements,
         warnings ++ [("Couldn't include image in PDF: " ++ e)%string])
    end
  else st.

Definition add_line (elements : list flowable) (line : string)
  : list flowable :=
  if Py.truthy (Py.strip line) then
    elements ++ [Paragraph line normal_style; Spacer 1 5]
  else elements.

(** The list handed to [doc.build], and the warnings shown. *)
Definition pdf_elements (markdown_text destination travel_dates : string)
  : state :=
  let elements :=
    [Paragraph ("Travel Itinerary to " ++ destination) title_style;
     Spacer 1 20;
     Paragraph ("Travel Dates: " ++ travel_dates) subheading_style;
     Spacer 1 30] in
  let html_content := markdown_markdown markdown_text in
  let soup := BeautifulSoup html_content in
  let st :=
    fold_left process_element
      (Html.find_all ["h1"; "h2"; "h3"; "p"; "ul"; "li"; "img"] soup)
      (elements, []) in
  let elements := fst st in
  let elements :=
    if (List.length elements <=? 4)%nat then
      fold_left add_line (Py.split_newline markdown_text) elements
    else elements in
  (elements ++ [Spacer 1 50; Paragraph Globe.footer_text footer_style],
   snd st).

Definition get_pdf_download_link
  (markdown_text filename destination travel_dates : string)
  : string * list string :=
  let r := pdf_elements markdown_text destination travel_dates in
  let pdf_data := doc_build (fst r) in
  let b64 := b64encode pdf_data in
  (("<a href=" ++ String "034" "data:application/pdf;base64," ++ b64
    ++ String "034" " download=" ++ String "034" filename
    ++ String "034" " class=" ++ String "034" "download-button"
    ++ String "034" ">Download PDF Itinerary</a>")%string,
   snd r).

End Renderer.

End TestApp.

(* ------------------------------------------------------------------ *)
(** ** [main.py]                                                       *)
(* ------------------------------------------------------------------ *)

Module Main.

(** A call either returns or lets an exception reach its caller. *)
Inductive outcome (A : Type) : Type :=
| Returned (a : A)
| Raised (e : string).
Arguments Returned {A} a.
Arguments Raised {A} e.

Section Amadeus.

(** [amadeus.Client] and the type of [response.data]. *)
Variable client : Type.
Variable data : Type.

(** [Client(client_id=..., client_secret=...)]: the client, a
    [ValueError] ([str(e)]), or another exception. *)
Inductive init_outcome : Type :=
| init_client (c : client)
| init_ValueError (e : string)
| init_other (e : string).

(** An API call: [response.data], a [ResponseError] ([str(error)]), or
    another exception. *)
Inductive api_outcome : Type :=
| api_data (d : data)
| api_ResponseError (e : string)
| api_other (e : string).

Variable Client : string -> string -> init_outcome.
(** [client.reference_data.locations.get(keyword, subType=AIRPORT)] *)
Variable locations_get : client -> string -> api_outcome.
(** [client.shopping.flight_offers_search.get(...)], [returnDate] given
    or not. *)
Variable flight_offers_search_get :
  client -> string -> string -> string -> option string -> nat -> api_outcome.
(** [client.reference_data.locations.by_id.get(locationId)] *)
Variable locations_by_id_get : client -> string -> api_outcome.

Record AmadeusFlightToolsSDK : Type := mk_sdk {
  sdk_client : option client;
  error_message : option string
}.

(** What an operation returns: [response.data] or [{"error": ...}]. *)
Inductive payload : Type :=
| response_data (d : data)
| error_dict (error : option string).

(** [AmadeusFlightToolsSDK.__init__] *)
Definition init (client_id client_secret : option string)
  : outcome AmadeusFlightToolsSDK :=
  match client_id, client_secret with
  | Some id, Some secret =>
      if Py.truthy id && Py.truthy secret then
        match Client id secret with
        | init_client c => Returned (mk_sdk (Some c) None)
        | init_ValueError e =>
            Returned
              (mk_sdk None
                 (Some ("Error initializing Amadeus client: " ++ e)%string))
        | init_other e => Raised e
        end
      else
        Returned (mk_sdk None (Some "Amadeus client credentials are missing"))
  | _, _ =>
      Returned (mk_sdk None (Some "Amadeus client credentials are missing"))
  end.

(** [try: ... return response.data / except ResponseError as error:
    return {"error": str(error)}] *)
Definition guarded (r : api_outcome) : outcome payload :=
  match r with
  | api_data d => Returned (response_data d)
  | api_ResponseError e => Returned (error_dict (Some e))
  | api_other e => Raised e
  end.

Definition search_airports (self : AmadeusFlightToolsSDK) (keyword : string)
  : outcome payload :=
  match sdk_client self with
  | None => Returned (error_dict (error_message self))
  | Some c => guarded (locations_get c keyword)
  end.

Definition search_flights (self : AmadeusFlightToolsSDK)
  (origin destination departure_date : string)
  (return_date : option string) (adults : nat) : outcome payload :=
  match sdk_client self with
  | None => Returned (error_dict (error_message self))
  | Some c =>
      if Py.truthy_opt return_date then
        guarded
          (flight_offers_search_get c origin destination departure_date
             return_date adults)
      else
        guarded
          (flight_offers_search_get c origin destination departure_date
             None adults)
  end.

Definition get_airport_info (self : AmadeusFlightToolsSDK)
  (airport_code : string) : outcome payload :=
  match sdk_client self with
  | None => Returned (error_dict (error_message self))
  | Some c => guarded (locations_by_id_get c airport_code)
  end.

End Amadeus.

Arguments init_client {client} c.
Arguments init_ValueError {client} e.
Arguments init_other {client} e.
Arguments api_data {data} d.
Arguments api_ResponseError {data} e.
Arguments api_other {data} e.
Arguments response_data {data} d.
Arguments error_dict {data} error.
Arguments mk_sdk {client} _ _.
Arguments sdk_client {client} _.
Arguments error_message {client} _.
Arguments init {client} _ _ _.
Arguments guarded {data} _.
Arguments search_airports {client data} _ _ _.
Arguments search_flights {client data} _ _ _ _ _ _ _.
Arguments get_airport_info {client data} _ _ _.

(** The payload of an SDK built without credentials. *)
Definition missing_credentials {data : Type} : payload data :=
  error_dict (Some "Amadeus client credentials are missing").

(** A payload is response data or an error object: an operation that
    returns gives one of the two, an operation that raises neither. *)
Definition data_or_error {data : Type} (r : outcome (payload data)) : Prop :=
  match r with
  | Returned (response_data _) => True
  | Returned (error_dict _) => True
  | Raised _ => False
  end.

Section Session.

Variable date : Type.
Variable strftime : date -> string.

Local Open Scope string_scope.

Record form : Type := mk_form {
  origin_airport : string;
  destination : string;
  start_date : date;
  end_date : date;
  travelers : nat;
  budget_option : string;
  interests : list string;
  accommodation : string;
  additional_notes : string
}.

(** The literals of [main.py], byte for byte. *)
Definition budget_map : list (string * string) :=
  [("Budget - Up to ‚Çπ50,000", "under ‚Çπ50,000");
   ("Mid-range - ‚Çπ50,000 to ‚Çπ1,50,000", "‚Çπ50,000-1,50,000");
   ("Luxury - Above ‚Çπ1,50,000", "over ‚Çπ1,50,000")].

Definition construct_query (f : form) : string :=
  if negb (Py.truthy (destination f)) then ""
  else
    let travel_dates :=
      strftime (start_date f) ++ " to " ++ strftime (end_date f) in
    let budget_str :=
      Globe.dict_get budget_map (budget_option f) "flexible" in
    let query :=
      "Plan a trip to " ++ destination f ++ " for "
        ++ Py.str_of_nat (travelers f) ++ " travelers" in
    let query :=
      if Py.truthy (origin_airport f)
      then query ++ " departing from " ++ origin_airport f else query in
    let query :=
      query ++ " from " ++ travel_dates ++ " with a " ++ budget_str
        ++ " budget in INR" in
    let query :=
      match interests f with
      | [] => query
      | _ :: _ =>
          query ++ ". We're interested in: " ++ Py.join ", " (interests f)
      end in
    let query :=
      if negb (accommodation f =? "Any")
      then query ++ ". We prefer staying in " ++ accommodation f else query in
    let query :=
      if Py.truthy (additional_notes f)
      then query ++ ". Additional notes: " ++ additional_notes f else query in
    query ++ ". Please include flight options, accommodations, daily activities, and all costs in INR.".

(** An entry of [st.session_state.messages]. *)
Inductive role : Type := user | assistant.
Record message : Type := mk_message { msg_role : role; content : string }.

(** [globe_hopper_agent.run(prompt)]: a response, with [str(response.content)]
    when it has the attribute, or an exception ([str(e)]). *)
Inductive agent_outcome : Type :=
| agent_response (content : option string)
| agent_raised (e : string).

(** What a run of the script writes on the page, as far as the travel tab
    goes: an error, a warning, or an expander with a query and the
    answer shown for it. *)
Inductive shown : Type :=
| st_error (msg : string)
| st_warning (msg : string)
| travel_plan (query response : string).

(** A [datetime.date] is always true. *)
Definition date_truthy (d : date) : bool := true.

(** [if generate_plan: ...] *)
Definition generate_plan_handler (globe_hopper_agent_run : string -> agent_outcome)
  (f : form) (messages : list message) : list message * list shown :=
  let user_prompt := construct_query f in
  if Py.truthy (destination f) && date_truthy (start_date f)
     && date_truthy (end_date f) then
    let messages := (messages ++ [mk_message user user_prompt])%list in
    match globe_hopper_agent_run user_prompt with
    | agent_response c =>
        let response_content :=
          match c with
          | Some s => s
          | None => "No response generated."
          end in
        ((messages ++ [mk_message assistant response_content])%list, [])
    | agent_raised e =>
        (messages, [st_error ("Error fetching response: " ++ e)])
    end
  else
    (messages,
     [st_warning "Please fill in at least the destination and travel dates."]).

(** [range(0, n, 2)] *)
Definition range_step2 (n : nat) : list nat :=
  map (fun k => 2 * k) (seq 0 (Nat.div2 (n + 1))).

(** The body of the loop [for i in range(0, len(messages), 2)]. *)
Definition display_at (messages : list message) (i : nat) : list shown :=
  if (i + 1 <? List.length messages)%nat then
    match nth_error messages i, nth_error messages (i + 1) with
    | Some q, Some r => [travel_plan (content q) (content r)]
    | _, _ => []
    end
  else [].

(** [if st.session_state.messages: for i in range(...)] *)
Definition display_travel_plans (messages : list message) : list shown :=
  match messages with
  | [] => []
  | _ :: _ =>
      flat_map (display_at messages) (range_step2 (List.length messages))
  end.

(** One run of the script over the travel tab, with the agent configured:
    the button was pressed or not; the history that stays in the session
    and what the page shows. *)
Definition run (globe_hopper_agent_run : string -> agent_outcome)
  (generate_plan : bool) (f : form) (messages : list message)
  : list message * list shown :=
  let r :=
    if generate_plan
    then generate_plan_handler globe_hopper_agent_run f messages
    else (messages, []) in
  (fst r, (snd r ++ display_travel_plans (fst r))%list).

(** The histories a session can hold. *)
Inductive reachable : list message -> Prop :=
| reachable_init : reachable []
| reachable_run : forall agent_run generate_plan f messages,
    reachable messages ->
    reachable (fst (run agent_run generate_plan f messages)).

(** The history is a sequence of (user, assistant) pairs. *)
Fixpoint paired (messages : list message) : bool :=
  match messages with
  | [] => true
  | q :: rest =>
      match rest with
      | [] => false
      | r :: rest' =>
          match msg_role q, msg_role r with
          | user, assistant => paired rest'
          | _, _ => false
          end
      end
  end.

End Session.

Arguments mk_form {date} _ _ _ _ _ _ _ _ _.
Arguments destination {date} _.

End Main.

(* ------------------------------------------------------------------ *)
(** ** The document as typed blocks                                    *)
(* ------------------------------------------------------------------ *)

(** The vocabulary in which the properties of the renderer are stated: a
    flowable list read as a sequence of blocks, spacers left out. *)
Module Blocks.
Import Pdf.

Inductive block : Type :=
| doc_title (t : string)       (* "Travel Itinerary to ..." *)
| doc_dates (t : string)       (* "Travel Dates: ..." *)
| title (t : string)           (* h1 *)
| section (t : string)         (* h2 *)
| day (t : string)             (* h3 *)
| paragraph (t : string)       (* p, or a raw line *)
| bullet (t : string)          (* li, without its bullet prefix *)
| image (png : string) (width height : Z)
| footer (t : string).

Definition block_of (f : flowable) : list block :=
  match f with
  | Paragraph t title_style => [doc_title t]
  | Paragraph t subheading_style => [doc_dates t]
  | Paragraph t heading_style => [title t]
  | Paragraph t section_style => [section t]
  | Paragraph t day_style => [day t]
  | Paragraph t normal_style => [paragraph t]
  | Paragraph t bullet_style =>
      match Py.strip_prefix "• " t with
      | Some item => [bullet item]
      | None => [bullet t]
      end
  | Paragraph t footer_style => [footer t]
  | Spacer _ _ => []
  | Image png w h => [image png w h]
  end.

Definition blocks_of (elements : list flowable) : list block :=
  flat_map block_of elements.

Definition is_image (b : block) : bool :=
  match b with
  | image _ _ _ => true
  | _ => false
  end.

Definition non_image_blocks (elements : list flowable) : list block :=
  filter (fun b => negb (is_image b)) (blocks_of elements).

(** The tags that stand for a block, and the block each stands for. *)
Definition recognized : list string := ["h1"; "h2"; "h3"; "p"; "li"].

Definition is_recognized (n : Html.node) : bool :=
  Html.name_in recognized (Html.name_of n).

Definition block_of_tag (n : Html.node) : block :=
  let name := Html.name_of n in
  if name =? "h1" then title (Html.text n)
  else if name =? "h2" then section (Html.text n)
  else if name =? "h3" then day (Html.text n)
  else if name =? "li" then bullet (Html.text n)
  else paragraph (Html.text n).

(** The lines of the fallback: those that [strip()] leaves non-empty. *)
Definition non_empty_lines (markdown_text : string) : list string :=
  filter (fun line => Py.truthy (Py.strip line)) (Py.split_newline markdown_text).

(** The four flowables every document starts with and the two it ends
    with. *)
Definition header (destination travel_dates : string) : list flowable :=
  [Paragraph ("Travel Itinerary to " ++ destination) title_style;
   Spacer 1 20;
   Paragraph ("Travel Dates: " ++ travel_dates) subheading_style;
   Spacer 1 30].

Definition footer_part : list flowable :=
  [Spacer 1 50; Paragraph Globe.footer_text footer_style].

(** What the loop of [globe.py] appends for one tag, and for a list of
    tags. *)
Definition emit (element : Html.node) : list flowable :=
  Globe.process_element [] element.

Definition walk (tags : list Html.node) : list flowable :=
  flat_map emit tags.

Definition line_paragraph (line : string) : list flowable :=
  [Paragraph line normal_style; Spacer 1 5].

(** The tags the loop of [globe.py] visits for a markdown text. *)
Definition visited (markdown_markdown : string -> string)
  (BeautifulSoup : string -> list Html.node) (markdown_text : string)
  : list Html.node :=
  Html.find_all ["h1"; "h2"; "h3"; "p"; "ul"; "li"]
    (BeautifulSoup (markdown_markdown markdown_text)).

End Blocks.

(* ------------------------------------------------------------------ *)
(** ** The vocabulary of the image extractor                           *)
(* ------------------------------------------------------------------ *)

Module Refs.

Local Open Scope string_scope.

Definition is_request (e : TestApp.effect) : bool :=
  match e with
  | TestApp.requests_get _ _ _ _ => true
  | _ => false
  end.

Definition is_image (e : TestApp.effect) : bool :=
  match e with
  | TestApp.st_image _ _ => true
  | _ => false
  end.

(** The caption [st.image] is called with for a reference. *)
Definition caption_of (m : Re.image_match) : string :=
  if Py.truthy (Re.alt_text m) then Re.alt_text m else "Travel Image".

(** The image a reference puts on the page. *)
Definition shown (m : Re.image_match) : TestApp.effect :=
  TestApp.st_image (Re.image_url m) (caption_of m).

(** Whether the display of a reference succeeds. *)
Definition displays (st_image_ok : string -> string -> bool)
  (m : Re.image_match) : bool :=
  st_image_ok (Re.image_url m) (caption_of m).

(** A text seen as plain stretches and image references. *)
Inductive piece : Type :=
| plain (s : string)
| ref (alt url : string).

Definition render_piece (p : piece) : string :=
  match p with
  | plain s => s
  | ref alt url => Re.group0 (Re.mk_match alt url)
  end.

Definition render (ps : list piece) : string :=
  String.concat "" (map render_piece ps).

Definition refs (ps : list piece) : list Re.image_match :=
  flat_map (fun p => match p with
                     | plain _ => []
                     | ref alt url => [Re.mk_match alt url]
                     end) ps.

(** [c] does not occur in [s]. *)
Fixpoint lacks (c : ascii) (s : string) : bool :=
  match s with
  | "" => true
  | String x s' => negb (x =? c)%char && lacks c s'
  end.

(** A plain stretch has no exclamation mark; the alternative text of a
    reference has no closing bracket, its address no closing parenthesis,
    and neither has an exclamation mark or a line break. *)
Definition well_formed (p : piece) : bool :=
  match p with
  | plain s => lacks "!" s
  | ref alt url =>
      lacks "]" alt && lacks "!" alt && lacks "010" alt
      && lacks ")" url && lacks "!" url && lacks "010" url
  end.

(** The piece is the reference [m]. *)
Definition same_ref (m : Re.image_match) (p : piece) : bool :=
  match p with
  | plain _ => false
  | ref alt url => (alt =? Re.alt_text m) && (url =? Re.image_url m)
  end.

(** The piece is a reference that displays and is one of [ms]. *)
Definition removed_by (st_image_ok : string -> string -> bool)
  (ms : list Re.image_match) (p : piece) : bool :=
  match p with
  | plain _ => false
  | ref alt url =>
      displays st_image_ok (Re.mk_match alt url)
      && existsb (fun m => same_ref m p) ms
  end.

(** The pieces left in the text: a reference goes when its display
    succeeds. *)
Definition kept (st_image_ok : string -> string -> bool) (p : piece) : bool :=
  match p with
  | plain _ => true
  | ref alt url => negb (displays st_image_ok (Re.mk_match alt url))
  end.

End Refs.

(* ------------------------------------------------------------------ *)
(** ** Library outputs used in the examples                            *)
(* ------------------------------------------------------------------ *)

(** The output of [markdown.markdown] and of
    [BeautifulSoup(html, 'html.parser')] on the handful of inputs the
    examples below run on, as tables. *)
Module Lib.
Import Html.

Local Open Scope string_scope.

Definition paris_markdown : string :=
  "# Paris Trip" ++ Py.nl ++ "## Day 1" ++ Py.nl
    ++ "- Visit the Louvre" ++ Py.nl ++ "- Eat croissants".

Definition paris_html : string :=
  "<h1>Paris Trip</h1>" ++ Py.nl ++ "<h2>Day 1</h2>" ++ Py.nl
    ++ "<ul>" ++ Py.nl ++ "<li>Visit the Louvre</li>" ++ Py.nl
    ++ "<li>Eat croissants</li>" ++ Py.nl ++ "</ul>".

Definition paris_soup : list node :=
  [Tag "h1" [] [NavigableString "Paris Trip"];
   NavigableString Py.nl;
   Tag "h2" [] [NavigableString "Day 1"];
   NavigableString Py.nl;
   Tag "ul" []
     [NavigableString Py.nl;
      Tag "li" [] [NavigableString "Visit the Louvre"];
      NavigableString Py.nl;
      Tag "li" [] [NavigableString "Eat croissants"];
      NavigableString Py.nl]].

(** One paragraph written on two lines. *)
Definition two_lines : string := "Bring a coat" ++ Py.nl ++ "and an umbrella".
Definition two_lines_html : string := "<p>" ++ two_lines ++ "</p>".
Definition two_lines_soup : list node :=
  [Tag "p" [] [NavigableString two_lines]].

(** Level-four headings only. *)
Definition h4_markdown : string := "#### Notes" ++ Py.nl ++ "#### Costs".
Definition h4_html : string := "<h4>Notes</h4>" ++ Py.nl ++ "<h4>Costs</h4>".
Definition h4_soup : list node :=
  [Tag "h4" [] [NavigableString "Notes"];
   NavigableString Py.nl;
   Tag "h4" [] [NavigableString "Costs"]].

(** A raw HTML block, which [markdown.markdown] hands on as it is, with an
    image tag on a line of its own, and the same block without the tag. *)
Definition div_img : string :=
  "<div>" ++ Py.nl ++ "<img src='http://img.example/louvre.png'>" ++ Py.nl
    ++ "</div>".
Definition div_img_soup : list node :=
  [Tag "div" []
     [NavigableString Py.nl;
      Tag "img" [("src", "http://img.example/louvre.png")] [];
      NavigableString Py.nl]].

Definition div_only : string := "<div>" ++ Py.nl ++ Py.nl ++ "</div>".
Definition div_only_soup : list node :=
  [Tag "div" [] [NavigableString (Py.nl ++ Py.nl)]].

(** A heading and a paragraph with an image in the middle of its text,
    and the same text without the image. *)
Definition louvre_url : string := "http://img.example/louvre.png".
Definition museum : string :=
  "# Paris" ++ Py.nl ++ Py.nl ++ "The ![Louvre](" ++ louvre_url ++ ") museum".
Definition museum_html : string :=
  "<h1>Paris</h1>" ++ Py.nl ++ "<p>The <img alt=" ++ String "034" "Louvre"
    ++ String "034" " src=" ++ String "034" louvre_url
    ++ String "034" " /> museum</p>".
Definition museum_soup : list node :=
  [Tag "h1" [] [NavigableString "Paris"];
   NavigableString Py.nl;
   Tag "p" []
     [NavigableString "The ";
      Tag "img" [("alt", "Louvre"); ("src", louvre_url)] [];
      NavigableString " museum"]].

Definition museum_only : string :=
  "# Paris" ++ Py.nl ++ Py.nl ++ "The  museum".
Definition museum_only_html : string :=
  "<h1>Paris</h1>" ++ Py.nl ++ "<p>The  museum</p>".
Definition museum_only_soup : list node :=
  [Tag "h1" [] [NavigableString "Paris"];
   NavigableString Py.nl;
   Tag "p" [] [NavigableString "The  museum"]].

(** A heading and a raw HTML paragraph that holds an image and nothing
    else, and the same with the image tag taken out. *)
Definition framed : string :=
  "# Paris" ++ Py.nl ++ Py.nl ++ "<p><img src='" ++ louvre_url ++ "'></p>".
Definition framed_html : string :=
  "<h1>Paris</h1>" ++ Py.nl ++ "<p><img src='" ++ louvre_url ++ "'></p>".
Definition framed_soup : list node :=
  [Tag "h1" [] [NavigableString "Paris"];
   NavigableString Py.nl;
   Tag "p" [] [Tag "img" [("src", louvre_url)] []]].

Definition frame_only : string := "# Paris" ++ Py.nl ++ Py.nl ++ "<p></p>".
Definition frame_only_html : string := "<h1>Paris</h1>" ++ Py.nl ++ "<p></p>".
Definition frame_only_soup : list node :=
  [Tag "h1" [] [NavigableString "Paris"];
   NavigableString Py.nl;
   Tag "p" [] []].

Definition markdown_markdown (markdown_text : string) : string :=
  if markdown_text =? paris_markdown then paris_html
  else if markdown_text =? framed then framed_html
  else if markdown_text =? frame_only then frame_only_html
  else if markdown_text =? museum then museum_html
  else if markdown_text =? museum_only then museum_only_html
  else if markdown_text =? two_lines then two_lines_html
  else if markdown_text =? h4_markdown then h4_html
  else if markdown_text =? div_img then div_img
  else if markdown_text =? div_only then div_only
  else "".

Definition BeautifulSoup (html : string) : list node :=
  if html =? paris_html then paris_soup
  else if html =? framed_html then framed_soup
  else if html =? frame_only_html then frame_only_soup
  else if html =? museum_html then museum_soup
  else if html =? museum_only_html then museum_only_soup
  else if html =? two_lines_html then two_lines_soup
  else if html =? h4_html then h4_soup
  else if html =? div_img then div_img_soup
  else if html =? div_only then div_only_soup
  else [].

End Lib.

(* ------------------------------------------------------------------ *)
(** ** The vocabulary of the renderer of [test.py]                     *)
(* ------------------------------------------------------------------ *)

Module ImgBlocks.
Import Pdf.

(** The fetch of an image fails: [requests.get] raises, the status is not
    200, or the body does not decode. *)
Definition fetch_fails (o : TestApp.fetch_outcome) : bool :=
  match o with
  | TestApp.fetch_raised _ => true
  | TestApp.fetch_response status_code body =>
      if (status_code =? 200)%Z then
        match body with
        | TestApp.decode_raised _ => true
        | TestApp.decoded _ _ => false
        end
      else true
  end.

(** The tags the loop of [test.py] visits for a markdown text. *)
Definition visited (markdown_markdown : string -> string)
  (BeautifulSoup : string -> list Html.node) (markdown_text : string)
  : list Html.node :=
  Html.find_all ["h1"; "h2"; "h3"; "p"; "ul"; "li"; "img"]
    (BeautifulSoup (markdown_markdown markdown_text)).

(** What the loop of [test.py] appends for one tag and for a list of tags:
    flowables, and warnings. *)
Definition emit (fetch_image : option string -> TestApp.fetch_outcome)
  (element : Html.node) : list flowable :=
  fst (TestApp.process_element fetch_image ([], []) element).

Definition warn (fetch_image : option string -> TestApp.fetch_outcome)
  (element : Html.node) : list string :=
  snd (TestApp.process_element fetch_image ([], []) element).

Definition walk (fetch_image : option string -> TestApp.fetch_outcome)
  (tags : list Html.node) : list flowable :=
  flat_map (emit fetch_image) tags.

(** What the loop reads of a tag: its name, its text, its [src]. *)
Definition key (n : Html.node) : string * string * option string :=
  (Html.name_of n, Html.text n, Html.get "src" n).

(** The tree without the nodes [drop] picks. *)
Fixpoint prune (drop : Html.node -> bool) (n : Html.node) : list Html.node :=
  if drop n then []
  else match n with
       | Html.Tag nm attrs children =>
           [Html.Tag nm attrs (flat_map (prune drop) children)]
       | Html.NavigableString _ => [n]
       end.

Definition is_img (n : Html.node) : bool := Html.name_of n =? "img".

(** An image tag, which holds nothing, whose fetch fails. *)
Definition failed_img (fetch_image : option string -> TestApp.fetch_outcome)
  (n : Html.node) : bool :=
  match n with
  | Html.Tag nm _ [] =>
      (nm =? "img") && fetch_fails (fetch_image (Html.get "src" n))
  | _ => false
  end.

End ImgBlocks.

(* ------------------------------------------------------------------ *)
(** ** [main.py]: the configuration                                    *)
(* ------------------------------------------------------------------ *)

Module MainConfig.
Import Main.

Local Open Scope string_scope.

(** The list [missing_keys], from the four environment variables. *)
Definition missing_keys
  (groq_api_key exa_api_key amadeus_client_id amadeus_client_secret
     : option string) : list string :=
  let missing_keys := [] in
  let missing_keys :=
    if negb (Py.truthy_opt groq_api_key)
    then (missing_keys ++ ["GROQ_API_KEY"])%list else missing_keys in
  let missing_keys :=
    if negb (Py.truthy_opt exa_api_key)
    then (missing_keys ++ ["EXA_API_KEY"])%list else missing_keys in
  let missing_keys :=
    if negb (Py.truthy_opt amadeus_client_id)
       || negb (Py.truthy_opt amadeus_client_secret)
    then (missing_keys
            ++ ["AMADEUS_CLIENT_ID and/or AMADEUS_CLIENT_SECRET"])%list
    else missing_keys in
  missing_keys.

(** [if missing_keys: st.warning(...)]: the message, when one is shown. *)
Definition startup_warning
  (groq_api_key exa_api_key amadeus_client_id amadeus_client_secret
     : option string) : option string :=
  match missing_keys groq_api_key exa_api_key amadeus_client_id
          amadeus_client_secret with
  | [] => None
  | (_ :: _) as missing =>
      Some ("‚ö†Ô∏è The following environment variables are missing: "
              ++ Py.join ", " missing
              ++ ". Some features may not work properly.")
  end.

Section Tools.

Variable client : Type.
Variable Client : string -> string -> init_outcome client.

(** What the agent is given: the two search tools, and the three
    functions that close over the SDK. *)
Inductive tool : Type :=
| ExaTools (api_key : string)
| DuckDuckGo
| search_airports_tool (amadeus_tools : AmadeusFlightToolsSDK client)
| search_flights_tool (amadeus_tools : AmadeusFlightToolsSDK client)
| get_airport_info_tool (amadeus_tools : AmadeusFlightToolsSDK client).

Definition create_tools_list
  (exa_api_key amadeus_client_id amadeus_client_secret : option string)
  : outcome (list tool) :=
  let tools := [] in
  let tools :=
    match exa_api_key with
    | Some k => if Py.truthy k then (tools ++ [ExaTools k])%list else tools
    | None => tools
    end in
  let tools := (tools ++ [DuckDuckGo])%list in
  if Py.truthy_opt amadeus_client_id && Py.truthy_opt amadeus_client_secret
  then
    match init Client amadeus_client_id amadeus_client_secret with
    | Returned amadeus_tools =>
        Returned
          (tools ++ [search_airports_tool amadeus_tools;
                     search_flights_tool amadeus_tools;
                     get_airport_info_tool amadeus_tools])%list
    | Raised e => Raised e
    end
  else Returned tools.

(** The SDK a tool closes over, if it is a flight tool. *)
Definition sdk_of (t : tool) : option (AmadeusFlightToolsSDK client) :=
  match t with
  | search_airports_tool sdk => Some sdk
  | search_flights_tool sdk => Some sdk
  | get_airport_info_tool sdk => Some sdk
  | _ => None
  end.

Definition is_flight_tool (t : tool) : bool :=
  match sdk_of t with
  | Some _ => true
  | None => false
  end.

End Tools.

Arguments ExaTools {client} api_key.
Arguments DuckDuckGo {client}.
Arguments search_airports_tool {client} amadeus_tools.
Arguments search_flights_tool {client} amadeus_tools.
Arguments get_airport_info_tool {client} amadeus_tools.
Arguments create_tools_list {client} _ _ _ _.
Arguments sdk_of {client} _.
Arguments is_flight_tool {client} _.

End MainConfig.

(* ------------------------------------------------------------------ *)
(** ** [test.py]: the prompt; [globe.py], [test.py]: the file name     *)
(* ------------------------------------------------------------------ *)

Module TestForm.

Section Form.

Variable date : Type.
Variable strftime : date -> string.

Local Open Scope string_scope.

Record form : Type := mk_form {
  origin_city : string;
  destination : string;
  start_date : date;
  end_date : date;
  travelers : nat;
  budget_option : string;
  interests : list string;
  accommodation : string;
  include_images : bool;
  additional_notes : string
}.

Definition budget_map : list (string * string) :=
  [("Budget - Up to ₹50,000", "under ₹50,000");
   ("Mid-range - ₹50,000 to ₹1,50,000", "₹50,000-1,50,000");
   ("Luxury - Above ₹1,50,000", "over ₹1,50,000")].

Definition construct_query (f : form) : string :=
  if negb (Py.truthy (destination f)) then ""
  else
    let travel_dates :=
      strftime (start_date f) ++ " to " ++ strftime (end_date f) in
    let budget_str := Globe.dict_get budget_map (budget_option f) "flexible" in
    let query :=
      "Plan a trip to " ++ destination f ++ " for "
        ++ Py.str_of_nat (travelers f) ++ " travelers" in
    let query :=
      if Py.truthy (origin_city f)
      then query ++ " departing from " ++ origin_city f else query in
    let query :=
      query ++ " from " ++ travel_dates ++ " with a " ++ budget_str
        ++ " budget in INR" in
    let query :=
      match interests f with
      | [] => query
      | _ :: _ =>
          query ++ ". We're interested in: " ++ Py.join ", " (interests f)
      end in
    let query :=
      if negb (accommodation f =? "Any")
      then query ++ ". We prefer staying in " ++ accommodation f else query in
    let query :=
      if include_images f
      then query ++ ". Please include relevant images of destinations, attractions, and accommodations where appropriate."
      else query in
    let query :=
      if Py.truthy (additional_notes f)
      then query ++ ". Additional notes: " ++ additional_notes f else query in
    query ++ ". Please include flight options, accommodations, daily activities, and all costs in INR. Use Exa to search for flight information, prices, and schedules.".

End Form.

Arguments mk_form {date} _ _ _ _ _ _ _ _ _ _.
Arguments destination {date} _.

End TestForm.

Module Page.

Local Open Scope string_scope.

(** [destination.replace(" ", "_") if destination else "travel_plan"] *)
Definition destination_name (destination : string) : string :=
  if Py.truthy destination then Py.replace " " "_" destination
  else "travel_plan".

(** The name of the PDF, [today_date] being
    [datetime.now().strftime("%Y%m%d")]. *)
Definition filename (destination today_date : string) : string :=
  destination_name destination ++ "_itinerary_" ++ today_date ++ ".pdf".

End Page.

(* ------------------------------------------------------------------ *)
(** ** [sp.py]                                                         *)
(* ------------------------------------------------------------------ *)

Module Sp.

Local Open Scope string_scope.

(** What a run of the script leaves on the page, and its one request. *)
Inductive effect : Type :=
| requests_get (url q tbm api_key : string)
| st_write (s : string)
| st_text (s : string)
| st_success (s : string)
| st_subheader (s : string)
| st_image (image caption : string)
| st_warning (s : string)
| st_error (s : string).

(** One entry of [results['images_results']]; a field is a string or
    absent. *)
Record img_result : Type := mk_img_result {
  original : option string;
  thumbnail : option string;
  source : option string;
  title : option string
}.

(** [requests.get] and [response.json()]: an exception, or the object,
    of which the script reads [str(results)[:1000]] and
    ['images_results']. *)
Inductive search_outcome : Type :=
| search_raised (e : string)
| search_json (str_results_1000 : string)
    (images_results : option (list img_result)).

Section Script.

Variable serpapi_api_key : option string.
Variable serpapi_search : string -> string -> search_outcome.
(** [st.image(url, caption)]: [None] when the image is shown, the message
    of the exception when it raises. *)
Variable st_image_raises : string -> string -> option string.

(** [d.get(key, default)] *)
Definition get_default (v : option string) (default : string) : string :=
  match v with
  | Some s => s
  | None => default
  end.

(** [img_result.get('original') or img_result.get('thumbnail')] *)
Definition original_or_thumbnail (r : img_result) : option string :=
  if Py.truthy_opt (original r) then original r else thumbnail r.

(** The body of the loop over the first three results: the effects so
    far, and the exception that ended the loop, if any. *)
Definition show_result (st : list effect * option string)
  (ir : nat * img_result) : list effect * option string :=
  match snd st with
  | Some _ => st
  | None =>
      let trace := fst st in
      let n := Py.str_of_nat (fst ir + 1) in
      let img_url := original_or_thumbnail (snd ir) in
      match img_url with
      | Some url =>
          if Py.truthy url then
            let trace := (trace ++ [st_subheader ("Image " ++ n)])%list in
            match st_image_raises url ("Result " ++ n) with
            | None =>
                ((trace
                    ++ [st_image url ("Result " ++ n);
                        st_write ("Source: "
                                    ++ get_default (source (snd ir)) "Unknown");
                        st_write ("Title: "
                                    ++ get_default (title (snd ir)) "No title")])%list,
                 None)
            | Some e => (trace, Some e)
            end
          else
            ((trace ++ [st_warning ("No valid URL found for image " ++ n)])%list,
             None)
      | None =>
          ((trace ++ [st_warning ("No valid URL found for image " ++ n)])%list,
           None)
      end
  end.

(** The script, for the text of the search box and the state of the
    button. *)
Definition run (search_query : string) (button : bool) : list effect :=
  match serpapi_api_key with
  | Some k =>
      if Py.truthy k then
        if button then
          let start :=
            [st_write "Searching for images...";
             requests_get "https://serpapi.com/search" search_query "isch" k] in
          match serpapi_search search_query k with
          | search_raised e => (start ++ [st_error ("Error: " ++ e)])%list
          | search_json raw images =>
              let trace :=
                (start
                   ++ [st_write "Raw API response (first 1000 chars):";
                       st_text (raw ++ "...")])%list in
              match images with
              | Some images_results =>
                  let trace :=
                    (trace
                       ++ [st_success
                             ("Found "
                                ++ Py.str_of_nat (List.length images_results)
                                ++ " images!")])%list in
                  let first3 := firstn 3 images_results in
                  let r :=
                    fold_left show_result
                      (combine (seq 0 (List.length first3)) first3)
                      (trace, None) in
                  match snd r with
                  | Some e => (fst r ++ [st_error ("Error: " ++ e)])%list
                  | None => fst r
                  end
              | None =>
                  (trace
                     ++ [st_error
                           "No images found in response. Check API key and response structure."])%list
              end
          end
        else []
      else [st_error "SERPAPI_API_KEY environment variable not found!"]
  | None => [st_error "SERPAPI_API_KEY environment variable not found!"]
  end.

End Script.

Definition is_image (e : effect) : bool :=
  match e with
  | st_image _ _ => true
  | _ => false
  end.

Definition is_request (e : effect) : bool :=
  match e with
  | requests_get _ _ _ _ => true
  | _ => false
  end.

Definition is_no_url_warning (e : effect) : bool :=
  match e with
  | st_warning _ => true
  | _ => false
  end.

Definition is_error (e : effect) : bool :=
  match e with
  | st_error _ => true
  | _ => false
  end.

End Sp.

(* ------------------------------------------------------------------ *)
(** ** More vocabulary                                                 *)
(* ------------------------------------------------------------------ *)

Module More.

Local Open Scope string_scope.

(** [sub] occurs in [s]. *)
Fixpoint occurs (sub s : string) : bool :=
  match Py.strip_prefix sub s with
  | Some _ => true
  | None =>
      match s with
      | "" => false
      | String _ s' => occurs sub s'
      end
  end.

(** The history read two entries at a time. *)
Fixpoint pair_up (messages : list Main.message) : list Main.shown :=
  match messages with
  | q :: rest =>
      match rest with
      | r :: rest' =>
          Main.travel_plan (Main.content q) (Main.content r) :: pair_up rest'
      | [] => []
      end
  | [] => []
  end.

(** Every entry of the user holds a prompt that is not empty, and every
    entry of the assistant comes right after one of the user. *)
Fixpoint turns (after_user : bool) (messages : list Main.message) : bool :=
  match messages with
  | [] => true
  | m :: rest =>
      match Main.msg_role m with
      | Main.user => Py.truthy (Main.content m) && turns true rest
      | Main.assistant => after_user && turns false rest
      end
  end.

(** An image flowable has the fixed width of 400 points. *)
Definition width_ok (f : Pdf.flowable) : bool :=
  match f with
  | Pdf.Image _ width _ => (width =? 400)%Z
  | _ => true
  end.

Definition is_image_flowable (f : Pdf.flowable) : bool :=
  match f with
  | Pdf.Image _ _ _ => true
  | _ => false
  end.

Definition is_warning (e : TestApp.effect) : bool :=
  match e with
  | TestApp.st_warning _ => true
  | _ => false
  end.

End More.

(* ------------------------------------------------------------------ *)
(** * Properties                                                       *)
(* ------------------------------------------------------------------ *)

Example split_newline_ex :
  Py.split_newline ("a" ++ Py.nl ++ Py.nl ++ "b" ++ Py.nl) = ["a"; ""; "b"; ""].
Proof. reflexivity. Qed.

Example strip_ex :
  Py.strip ("  " ++ Py.nl ++ " Day 1 • " ++ String "009" "") = "Day 1 •".
Proof. reflexivity. Qed.

Example strip_nbsp_ex :
  Py.strip (String "194" (String "160" " ")) = "".
Proof. reflexivity. Qed.

Example finditer_ex :
  Re.finditer ("See ![Louvre](http://x/l.png) and ![](b)" ++ Py.nl ++ "![c" ++ Py.nl ++ "](d)")
  = [Re.mk_match "Louvre" "http://x/l.png"; Re.mk_match "" "b"].
Proof. reflexivity. Qed.

Example finditer_nested_ex :
  Re.finditer "!![x](y)[a](b) ![p]q](r(s)t)" = [Re.mk_match "x" "y"; Re.mk_match "p]q" "r(s"].
Proof. reflexivity. Qed.

Example replace_ex : Py.replace "ab" "" "aabbxab" = "abx".
Proof. reflexivity. Qed.

Example search_destination_ex :
  Re.search_destination "Plan a trip to Paris for 2 travelers for fun" = Some "Paris".
Proof. reflexivity. Qed.


(* ------------------------------------------------------------------ *)
(** ** Strings                                                         *)
(* ------------------------------------------------------------------ *)

Section StringFacts.

Local Open Scope string_scope.

Lemma append_nil_r (s : string) : s ++ "" = s.
Proof. induction s as [|c s IH]; simpl; [reflexivity | now rewrite IH]. Qed.

Lemma append_assoc (a b c : string) : (a ++ b) ++ c = a ++ (b ++ c).
Proof. induction a as [|x a IH]; simpl; [reflexivity | now rewrite IH]. Qed.

Lemma length_append (a b : string) :
  String.length (a ++ b) = String.length a + String.length b.
Proof. induction a as [|x a IH]; simpl; [reflexivity | now rewrite IH]. Qed.

Lemma strip_prefix_append (p s : string) : Py.strip_prefix p (p ++ s) = Some s.
Proof.
  induction p as [|a p IH]; simpl; [reflexivity |].
  now rewrite Ascii.eqb_refl.
Qed.

(** What [strip_prefix] returns is the rest of the string. *)
Lemma strip_prefix_some (p s r : string) :
  Py.strip_prefix p s = Some r -> s = p ++ r.
Proof.
  revert s; induction p as [|a p IH]; intros s H; simpl in *.
  - now inversion H.
  - destruct s as [|b s]; [discriminate |].
    destruct (Ascii.eqb_spec a b) as [->|]; [|discriminate].
    now rewrite (IH _ H).
Qed.

Lemma truthy_false (s : string) : Py.truthy s = false <-> s = "".
Proof.
  unfold Py.truthy. destruct (String.eqb_spec s ""); simpl; split; congruence.
Qed.

Lemma truthy_true (s : string) : Py.truthy s = true <-> s <> "".
Proof.
  unfold Py.truthy. destruct (String.eqb_spec s ""); simpl; split; congruence.
Qed.

End StringFacts.

(* ------------------------------------------------------------------ *)
(** ** The tree walk                                                   *)
(* ------------------------------------------------------------------ *)

Section TreeFacts.

(** Every node [find_all] returns carries one of the names asked for. *)
Lemma find_all_in_named (names : list string) :
  forall n x, In x (Html.find_all_in names n) ->
    Html.name_in names (Html.name_of x) = true.
Proof.
  fix IH 1. intros [nm attrs children | s] x Hin; simpl in Hin.
  - apply in_app_or in Hin. destruct Hin as [Hself | Hbelow].
    + destruct (Html.name_in names nm) eqn:E; simpl in Hself.
      * destruct Hself as [<- | []]. exact E.
      * contradiction.
    + clear attrs nm. induction children as [|c cs IHcs]; simpl in Hbelow.
      * contradiction.
      * apply in_app_or in Hbelow. destruct Hbelow as [Hc | Hcs].
        -- exact (IH c x Hc).
        -- exact (IHcs Hcs).
  - contradiction.
Qed.

Lemma find_all_named (names : list string) (soup : list Html.node) (x : Html.node) :
  In x (Html.find_all names soup) ->
  Html.name_in names (Html.name_of x) = true.
Proof.
  unfold Html.find_all. intro Hin. apply in_flat_map in Hin.
  destruct Hin as [n [_ Hx]]. exact (find_all_in_named names n x Hx).
Qed.

Lemma concat_empty_cons (x : string) (xs : list string) :
  String.concat "" (x :: xs) = (x ++ String.concat "" xs)%string.
Proof.
  destruct xs as [|y ys]; simpl; [now rewrite append_nil_r | reflexivity].
Qed.

Lemma concat_empty_app (l1 l2 : list string) :
  String.concat "" (l1 ++ l2)
  = (String.concat "" l1 ++ String.concat "" l2)%string.
Proof.
  induction l1 as [|x l1 IH]; [reflexivity |].
  change ((x :: l1) ++ l2) with (x :: (l1 ++ l2)).
  rewrite !concat_empty_cons, IH, append_assoc. reflexivity.
Qed.

(** Removing childless image tags from a tree changes no text. *)
Lemma prune_text (drop : Html.node -> bool) :
  (forall n, drop n = true -> exists attrs, n = Html.Tag "img" attrs []) ->
  forall n,
    String.concat "" (map Html.text (ImgBlocks.prune drop n)) = Html.text n.
Proof.
  intro Hdrop. fix IH 1. intros [nm attrs children | s].
  - cbn [ImgBlocks.prune]. destruct (drop (Html.Tag nm attrs children)) eqn:E.
    + destruct (Hdrop _ E) as [attrs' Heq]. injection Heq as -> -> ->.
      reflexivity.
    + cbn [map]. rewrite concat_empty_cons. cbn [String.concat Html.text].
      rewrite append_nil_r. clear E.
      induction children as [|c cs IHcs]; [reflexivity |].
      cbn [flat_map map]. rewrite map_app, concat_empty_app, IH, IHcs.
      now rewrite concat_empty_cons.
  - cbn [ImgBlocks.prune]. destruct (drop (Html.NavigableString s)) eqn:E.
    + destruct (Hdrop _ E) as [attrs' Heq]. discriminate.
    + reflexivity.
Qed.

(** The tags visited in the tree without the dropped image tags are the
    tags visited in the tree, the dropped ones left out, with the same
    names, texts and [src]. *)
Lemma prune_visited_keys (names : list string) (drop : Html.node -> bool) :
  (forall n, drop n = true -> exists attrs, n = Html.Tag "img" attrs []) ->
  forall soup,
    map ImgBlocks.key
      (Html.find_all names (flat_map (ImgBlocks.prune drop) soup))
    = map ImgBlocks.key
        (filter (fun n => negb (drop n)) (Html.find_all names soup)).
Proof.
  intro Hdrop.
  assert (Hnode : forall n,
    map ImgBlocks.key
      (flat_map (Html.find_all_in names) (ImgBlocks.prune drop n))
    = map ImgBlocks.key
        (filter (fun x => negb (drop x)) (Html.find_all_in names n))).
  { fix IH 1. intros [nm attrs children | s].
    - cbn [ImgBlocks.prune].
      destruct (drop (Html.Tag nm attrs children)) eqn:E.
      + destruct (Hdrop _ E) as [attrs' Heq]. injection Heq as -> -> ->.
        cbn [Html.find_all_in flat_map]. rewrite app_nil_r.
        destruct (Html.name_in names "img"); [| reflexivity].
        cbn [filter]. now rewrite E.
      + cbn [flat_map Html.find_all_in]. rewrite app_nil_r.
        rewrite filter_app, !map_app. f_equal.
        * destruct (Html.name_in names nm); [| reflexivity].
          cbn [filter]. rewrite E. cbn [negb map]. f_equal.
          unfold ImgBlocks.key. cbn [Html.name_of Html.get Html.text].
          f_equal. f_equal.
          clear E. induction children as [|c cs IHcs]; [reflexivity |].
          cbn [flat_map map]. rewrite map_app, concat_empty_app.
          rewrite (prune_text drop Hdrop c), IHcs.
          now rewrite concat_empty_cons.
        * clear E. induction children as [|c cs IHcs]; [reflexivity |].
          cbn [flat_map]. rewrite flat_map_app, filter_app, !map_app.
          now rewrite IH, IHcs.
    - cbn [ImgBlocks.prune]. destruct (drop (Html.NavigableString s));
        reflexivity. }
  unfold Html.find_all.
  induction soup as [|n soup IHsoup]; [reflexivity |].
  cbn [flat_map]. rewrite flat_map_app, filter_app, !map_app.
  now rewrite Hnode, IHsoup.
Qed.

End TreeFacts.

(* ------------------------------------------------------------------ *)
(** ** The document renderer of [globe.py]                             *)
(* ------------------------------------------------------------------ *)

(** Case analysis on the name of a tag, one string test at a time. *)
Ltac name_cases nm :=
  repeat match goal with
         | |- context [String.eqb nm ?lit] =>
             destruct (String.eqb_spec nm lit); [subst nm; simpl; try reflexivity |]
         end.

Section GlobeWalk.

Import Pdf Blocks.

Lemma process_element_emit (elements : list flowable) (e : Html.node) :
  Globe.process_element elements e = elements ++ emit e.
Proof.
  unfold emit, Globe.process_element; cbv zeta.
  generalize (Html.name_of e) as nm; intro nm.
  name_cases nm; simpl; now rewrite app_nil_r.
Qed.

Lemma fold_process_element (tags : list Html.node) :
  forall init, fold_left Globe.process_element tags init = init ++ walk tags.
Proof.
  induction tags as [|e tags IH]; intro init; simpl.
  - now rewrite app_nil_r.
  - rewrite IH, process_element_emit, <- app_assoc. reflexivity.
Qed.

Lemma fold_add_line (lines : list string) :
  forall init,
    fold_left Globe.add_line lines init
    = init ++ flat_map line_paragraph
                (filter (fun line => Py.truthy (Py.strip line)) lines).
Proof.
  induction lines as [|l lines IH]; intro init; simpl.
  - now rewrite app_nil_r.
  - rewrite IH. unfold Globe.add_line.
    destruct (Py.truthy (Py.strip l)); simpl.
    + now rewrite <- app_assoc.
    + reflexivity.
Qed.

(** A recognized tag appends one block, any other tag nothing. *)
Lemma emit_blocks (e : Html.node) :
  blocks_of (emit e) = if is_recognized e then [block_of_tag e] else [].
Proof.
  unfold emit, Globe.process_element, is_recognized, block_of_tag,
    Html.name_in, recognized; cbv zeta.
  generalize (Html.text e) as t. generalize (Html.name_of e) as nm.
  intros nm t. simpl existsb.
  name_cases nm. reflexivity.
Qed.

Lemma emit_nil_iff (e : Html.node) : emit e = [] <-> is_recognized e = false.
Proof.
  unfold emit, Globe.process_element, is_recognized, Html.name_in, recognized;
    cbv zeta.
  generalize (Html.text e) as t. generalize (Html.name_of e) as nm.
  intros nm t. simpl existsb.
  name_cases nm; simpl; try (split; [discriminate | discriminate]).
  all: split; reflexivity.
Qed.

Lemma blocks_of_app (a b : list flowable) :
  blocks_of (a ++ b) = blocks_of a ++ blocks_of b.
Proof. unfold blocks_of. apply flat_map_app. Qed.

Lemma walk_blocks (tags : list Html.node) :
  blocks_of (walk tags) = map block_of_tag (filter is_recognized tags).
Proof.
  induction tags as [|e tags IH]; simpl; [reflexivity |].
  rewrite blocks_of_app, emit_blocks, IH.
  destruct (is_recognized e); reflexivity.
Qed.

Lemma walk_nil_iff (tags : list Html.node) :
  walk tags = [] <-> filter is_recognized tags = [].
Proof.
  induction tags as [|e tags IH]; simpl; [tauto |].
  destruct (is_recognized e) eqn:E.
  - split; [|discriminate]. intro H. apply app_eq_nil in H.
    destruct H as [H _]. apply emit_nil_iff in H. congruence.
  - apply emit_nil_iff in E. rewrite E. simpl. exact IH.
Qed.

Lemma line_paragraph_blocks (lines : list string) :
  blocks_of (flat_map line_paragraph lines) = map paragraph lines.
Proof.
  induction lines as [|l lines IH]; simpl; [reflexivity |].
  unfold blocks_of in *. simpl. now rewrite IH.
Qed.

End GlobeWalk.

Section GlobeRenderer.

Import Pdf Blocks.

Variable markdown_markdown : string -> string.
Variable BeautifulSoup : string -> list Html.node.

Local Notation "'pdf_elements'" :=
  (Globe.pdf_elements markdown_markdown BeautifulSoup).
Local Notation "'visited'" :=
  (Blocks.visited markdown_markdown BeautifulSoup).

(** The shape of every document: header, what the walk appends, the raw
    lines when the walk appended nothing, footer. *)
Lemma pdf_elements_shape (markdown_text destination travel_dates : string) :
  pdf_elements markdown_text destination travel_dates
  = header destination travel_dates
      ++ walk (visited markdown_text)
      ++ match filter is_recognized (visited markdown_text) with
         | [] => flat_map line_paragraph (non_empty_lines markdown_text)
         | _ :: _ => []
         end
      ++ footer_part.
Proof.
  unfold Globe.pdf_elements; cbv zeta.
  fold (Blocks.visited markdown_markdown BeautifulSoup markdown_text).
  fold (header destination travel_dates).
  rewrite fold_process_element.
  destruct (filter is_recognized (visited markdown_text)) as [|r rs] eqn:E.
  - apply walk_nil_iff in E. rewrite E, app_nil_r.
    change (List.length (header destination travel_dates) <=? 4)%nat with true.
    cbv iota. rewrite fold_add_line. reflexivity.
  - assert (Hw : walk (visited markdown_text) <> []).
    { intro H. apply walk_nil_iff in H. congruence. }
    destruct (walk (visited markdown_text)) as [|w ws]; [congruence |].
    assert (Hlen : (List.length (header destination travel_dates ++ w :: ws)
                    <=? 4)%nat = false).
    { rewrite length_app. reflexivity. }
    rewrite Hlen. now rewrite <- app_assoc.
Qed.

Lemma tree_blocks_nil_iff (tags : list Html.node) :
  blocks_of (walk tags) = [] <-> filter is_recognized tags = [].
Proof.
  rewrite walk_blocks. split; intro H.
  - now apply map_eq_nil in H.
  - now rewrite H.
Qed.



(** C3.  On the markdown of the example, for which [markdown.markdown]
    and [BeautifulSoup] give the HTML and the tree of [Lib], the
    renderer emits, after the header, the title "Paris Trip", the section
    "Day 1" and the two bullets, and the footer last. *)
Theorem paris_trip_blocks (destination travel_dates : string) :
  markdown_markdown Lib.paris_markdown = Lib.paris_html ->
  BeautifulSoup Lib.paris_html = Lib.paris_soup ->
  pdf_elements Lib.paris_markdown destination travel_dates
  = header destination travel_dates
      ++ [Paragraph "Paris Trip" heading_style; Spacer 1 10;
          Paragraph "Day 1" section_style; Spacer 1 10;
          Paragraph "• Visit the Louvre" bullet_style;
          Paragraph "• Eat croissants" bullet_style]
      ++ footer_part
  /\ blocks_of (pdf_elements Lib.paris_markdown destination travel_dates)
     = [doc_title ("Travel Itinerary to " ++ destination);
        doc_dates ("Travel Dates: " ++ travel_dates);
        title "Paris Trip"; section "Day 1";
        bullet "Visit the Louvre"; bullet "Eat croissants";
        footer Globe.footer_text]
  /\ last (blocks_of (pdf_elements Lib.paris_markdown destination travel_dates))
       (footer "") = footer Globe.footer_text.
Proof.
  intros Hmd Hsoup.
  assert (E : pdf_elements Lib.paris_markdown destination travel_dates
    = header destination travel_dates
      ++ [Paragraph "Paris Trip" heading_style; Spacer 1 10;
          Paragraph "Day 1" section_style; Spacer 1 10;
          Paragraph "• Visit the Louvre" bullet_style;
          Paragraph "• Eat croissants" bullet_style]
      ++ footer_part).
  { unfold Globe.pdf_elements; cbv zeta. rewrite Hmd, Hsoup. reflexivity. }
  rewrite E. repeat split.
Qed.

End GlobeRenderer.



(** The example of C3 with the library tables. *)
Lemma paris_trip_blocks_witness :
  Lib.markdown_markdown Lib.paris_markdown = Lib.paris_html
  /\ Lib.BeautifulSoup Lib.paris_html = Lib.paris_soup
  /\ Blocks.blocks_of
       (Globe.pdf_elements Lib.markdown_markdown Lib.BeautifulSoup
          Lib.paris_markdown "Paris" "Jan 01, 2025 to Jan 05, 2025")
     = [Blocks.doc_title "Travel Itinerary to Paris";
        Blocks.doc_dates "Travel Dates: Jan 01, 2025 to Jan 05, 2025";
        Blocks.title "Paris Trip"; Blocks.section "Day 1";
        Blocks.bullet "Visit the Louvre"; Blocks.bullet "Eat croissants";
        Blocks.footer Globe.footer_text].
Proof.
  split; [reflexivity | split; [reflexivity |]].
  apply (paris_trip_blocks Lib.markdown_markdown Lib.BeautifulSoup
           "Paris" "Jan 01, 2025 to Jan 05, 2025");
    reflexivity.
Defined.

(* ------------------------------------------------------------------ *)
(** ** The prompt builder                                              *)
(* ------------------------------------------------------------------ *)

Section PromptBuilder.

Variable date : Type.
Variable strftime : date -> string.

Local Open Scope string_scope.

Lemma append_eq_nil (a b : string) : a ++ b = "" -> b = "".
Proof.
  destruct a as [|c a]; simpl; [trivial | discriminate].
Qed.

(** C9.  In [main.py] and in [globe.py] alike, whatever the other fields
    hold, the prompt is the empty string exactly when the destination is
    empty: an empty destination gives the empty prompt, and a prompt that
    is not empty comes from a destination that is not empty. *)
Theorem construct_query_empty_iff :
  (forall f : Main.form date,
      Main.construct_query date strftime f = "" <-> Main.destination f = "")
  /\ (forall f : Globe.form date,
      Globe.construct_query date strftime f = "" <-> Globe.destination f = "").
Proof.
  split; intro f.
  - unfold Main.construct_query.
    destruct (Py.truthy (Main.destination f)) eqn:E; simpl.
    + split; intro H.
      * apply append_eq_nil in H. discriminate.
      * apply truthy_true in E. contradiction.
    + apply truthy_false in E. tauto.
  - unfold Globe.construct_query.
    destruct (Py.truthy (Globe.destination f)) eqn:E; simpl.
    + split; intro H.
      * apply append_eq_nil in H. discriminate.
      * apply truthy_true in E. contradiction.
    + apply truthy_false in E. tauto.
Qed.

End PromptBuilder.

Example construct_query_ex :
  Main.construct_query unit (fun _ => "Jan 01, 2025")
    (Main.mk_form "DEL" "Paris" tt tt 2 "Luxury - Above ‚Çπ1,50,000"
       ["Adventure"; "Cultural"] "Any" "")
  = "Plan a trip to Paris for 2 travelers departing from DEL from Jan 01, 2025 to Jan 01, 2025 with a over ‚Çπ1,50,000 budget in INR. We're interested in: Adventure, Cultural. Please include flight options, accommodations, daily activities, and all costs in INR.".
Proof. reflexivity. Qed.

(* ------------------------------------------------------------------ *)
(** ** The flight-search tools                                         *)
(* ------------------------------------------------------------------ *)

Section FlightTools.

Import Main.

Variable client : Type.
Variable data : Type.
Variable Client : string -> string -> init_outcome client.
Variable locations_get : client -> string -> api_outcome data.
Variable flight_offers_search_get :
  client -> string -> string -> string -> option string -> nat -> api_outcome data.
Variable locations_by_id_get : client -> string -> api_outcome data.

Lemma guarded_not_other (r : api_outcome data) :
  (forall e, r <> api_other e) -> data_or_error (guarded r).
Proof.
  destruct r as [d | e | e]; simpl; intro H; [exact I | exact I |].
  exact (H e eq_refl).
Qed.

Lemma init_missing (client_id client_secret : option string) :
  Py.truthy_opt client_id && Py.truthy_opt client_secret = false ->
  init Client client_id client_secret
  = Returned (mk_sdk None (Some "Amadeus client credentials are missing")).
Proof.
  unfold init. destruct client_id as [id|], client_secret as [secret|];
    simpl; try reflexivity.
  intro H. now rewrite H.
Qed.

(** C7.  (1) With a client id or secret absent (unset or empty), the SDK
    is built without raising and each of the three operations returns
    [{"error": "Amadeus client credentials are missing"}].  (2) Whatever
    the SDK and the arguments, an operation whose API call answers or
    raises [ResponseError] returns response data or an error object, and
    on a [ResponseError] it returns [{"error": str(error)}]; it raises
    only what the API call raised that is no [ResponseError]. *)
Theorem flight_tools_return_data_or_error :
  (forall client_id client_secret,
      Py.truthy_opt client_id && Py.truthy_opt client_secret = false ->
      exists sdk,
        init Client client_id client_secret = Returned sdk
        /\ (forall keyword,
              search_airports locations_get sdk keyword
              = Returned missing_credentials)
        /\ (forall origin destination departure_date return_date adults,
              search_flights flight_offers_search_get sdk
                origin destination departure_date return_date adults
              = Returned missing_credentials)
        /\ (forall airport_code,
              get_airport_info locations_by_id_get sdk airport_code
              = Returned missing_credentials))
  /\ (forall (sdk : AmadeusFlightToolsSDK client) keyword,
        (forall c e, locations_get c keyword <> api_other e) ->
        data_or_error (search_airports locations_get sdk keyword))
  /\ (forall (sdk : AmadeusFlightToolsSDK client)
             origin destination departure_date return_date adults,
        (forall c rd e,
            flight_offers_search_get c origin destination departure_date rd adults
            <> api_other e) ->
        data_or_error
          (search_flights flight_offers_search_get sdk
             origin destination departure_date return_date adults))
  /\ (forall (sdk : AmadeusFlightToolsSDK client) airport_code,
        (forall c e, locations_by_id_get c airport_code <> api_other e) ->
        data_or_error
          (get_airport_info locations_by_id_get sdk airport_code))
  /\ (forall c error keyword e,
        locations_get c keyword = api_ResponseError e ->
        search_airports locations_get (mk_sdk (Some c) error) keyword
        = Returned (error_dict (Some e)))
  /\ (forall c error origin destination departure_date return_date adults e,
        flight_offers_search_get c origin destination departure_date
          (if Py.truthy_opt return_date then return_date else None) adults
        = api_ResponseError e ->
        search_flights flight_offers_search_get
          (mk_sdk (Some c) error)
          origin destination departure_date return_date adults
        = Returned (error_dict (Some e)))
  /\ (forall c error airport_code e,
        locations_by_id_get c airport_code = api_ResponseError e ->
        get_airport_info locations_by_id_get
          (mk_sdk (Some c) error) airport_code
        = Returned (error_dict (Some e))).
Proof.
  split.
  { intros client_id client_secret Hmissing.
    exists (mk_sdk None (Some "Amadeus client credentials are missing")).
    split; [now apply init_missing |].
    repeat split. }
  split.
  { intros [[c|] msg] keyword Hapi; unfold search_airports; simpl.
    - apply guarded_not_other. apply Hapi.
    - exact I. }
  split.
  { intros [[c|] msg] origin destination departure_date return_date adults Hapi;
      unfold search_flights; simpl.
    - destruct (Py.truthy_opt return_date); apply guarded_not_other; apply Hapi.
    - exact I. }
  split.
  { intros [[c|] msg] airport_code Hapi; unfold get_airport_info; simpl.
    - apply guarded_not_other. apply Hapi.
    - exact I. }
  split.
  { intros c error keyword e H. unfold search_airports; simpl. now rewrite H. }
  split.
  { intros c error origin destination departure_date return_date adults e H.
    unfold search_flights; simpl.
    destruct (Py.truthy_opt return_date); now rewrite H. }
  intros c error airport_code e H. unfold get_airport_info; simpl. now rewrite H.
Qed.

End FlightTools.

(** An API that answers every airport search with a [ResponseError], and a
    secret that is not set. *)
Lemma flight_tools_witness :
  Main.search_airports (client:=unit) (data:=string)
    (fun _ _ => Main.api_ResponseError "[400]")
    (Main.mk_sdk (Some tt) None) "paris"
  = Main.Returned (Main.error_dict (Some "[400]"))
  /\ exists sdk,
       Main.init (client:=unit) (fun _ _ => Main.init_client tt) (Some "id") None
       = Main.Returned sdk
       /\ Main.get_airport_info (client:=unit) (data:=string)
            (fun _ _ => Main.api_other "timeout") sdk "CDG"
          = Main.Returned (Main.error_dict (Some "Amadeus client credentials are missing")).
Proof.
  pose proof (flight_tools_return_data_or_error unit string
                (fun _ _ => Main.init_client tt)
                (fun _ _ => Main.api_ResponseError "[400]")
                (fun _ _ _ _ _ _ => Main.api_ResponseError "[400]")
                (fun _ _ => Main.api_other "timeout"))
    as [Hmissing [_ [_ [_ [Hairports _]]]]].
  split.
  - apply Hairports. reflexivity.
  - destruct (Hmissing (Some "id") None eq_refl) as [sdk [Hinit [_ [_ Hinfo]]]].
    exists sdk. split; [exact Hinit | apply Hinfo].
Defined.

(* ------------------------------------------------------------------ *)
(** ** The conversation history                                        *)
(* ------------------------------------------------------------------ *)

Section History.

Import Main.

Variable date : Type.
Variable strftime : date -> string.

Lemma flat_map_ext_in {A B : Type} (f g : A -> list B) (l : list A) :
  (forall x, In x l -> f x = g x) -> flat_map f l = flat_map g l.
Proof.
  induction l as [|x l IH]; intro H; simpl; [reflexivity |].
  rewrite (H x (or_introl eq_refl)), IH; [reflexivity |].
  intros y Hy. apply H. now right.
Qed.

Lemma range_step2_odd (k : nat) :
  range_step2 (2 * k + 1) = range_step2 (2 * k) ++ [2 * k].
Proof.
  unfold range_step2.
  replace (2 * k + 1 + 1) with (2 * (S k)) by lia.
  replace (2 * k + 1) with (S (2 * k)) by lia.
  rewrite Nat.div2_double, Nat.div2_succ_double.
  rewrite seq_S, map_app. reflexivity.
Qed.

Lemma range_step2_even_bound (k i : nat) :
  In i (range_step2 (2 * k)) -> i + 2 <= 2 * k.
Proof.
  unfold range_step2. intro H. apply in_map_iff in H.
  destruct H as [j [<- Hj]]. apply in_seq in Hj.
  replace (2 * k + 1) with (S (2 * k)) in Hj by lia.
  rewrite Nat.div2_succ_double in Hj. lia.
Qed.

Lemma display_at_app (messages : list message) (m : message) (i : nat) :
  i + 1 < List.length messages ->
  display_at (messages ++ [m]) i = display_at messages i.
Proof.
  intro Hi. unfold display_at. rewrite length_app. simpl.
  assert (H1 : (i + 1 <? List.length messages + 1)%nat = true)
    by (apply Nat.ltb_lt; lia).
  assert (H2 : (i + 1 <? List.length messages)%nat = true)
    by (apply Nat.ltb_lt; lia).
  rewrite H1, H2.
  rewrite !nth_error_app1 by lia. reflexivity.
Qed.

Lemma display_travel_plans_unfold (messages : list message) :
  display_travel_plans messages
  = flat_map (display_at messages) (range_step2 (List.length messages)).
Proof. destruct messages; reflexivity. Qed.

(** The display loop shows nothing for an entry left without its pair at
    the end of the history. *)
Lemma display_drops_unpaired_trailing (messages : list message) (m : message) :
  Nat.even (List.length messages) = true ->
  display_travel_plans (messages ++ [m]) = display_travel_plans messages.
Proof.
  intro Heven. apply Nat.even_spec in Heven. destruct Heven as [k Hk].
  rewrite !display_travel_plans_unfold, length_app.
  change (List.length [m]) with 1.
  rewrite Hk, range_step2_odd, flat_map_app.
  assert (Hlast : display_at (messages ++ [m]) (2 * k) = []).
  { unfold display_at. rewrite length_app, Hk.
    change (List.length [m]) with 1.
    rewrite Nat.ltb_irrefl. reflexivity. }
  cbn [flat_map]. rewrite Hlast, !app_nil_r.
  apply flat_map_ext_in. intros i Hin.
  apply range_step2_even_bound in Hin.
  apply display_at_app. lia.
Qed.

Lemma paired_app (l : list message) :
  forall n messages,
    List.length messages <= n ->
    paired messages = true ->
    paired (messages ++ l) = paired l.
Proof.
  induction n as [|n IH]; intros messages Hlen Hp.
  - destruct messages; [reflexivity | simpl in Hlen; lia].
  - destruct messages as [|q [|r rest]]; [reflexivity | discriminate |].
    simpl in *. destruct (msg_role q), (msg_role r); try discriminate.
    apply IH; [lia | exact Hp].
Qed.

(** As long as the agent answers, the history stays a sequence of (user,
    assistant) pairs. *)
Lemma paired_while_agent_answers
  (agent_run : string -> agent_outcome) (generate_plan : bool)
  (f : form date) (messages : list message) :
  (forall prompt e, agent_run prompt <> agent_raised e) ->
  paired messages = true ->
  paired (fst (run date strftime agent_run generate_plan f messages)) = true.
Proof.
  intros Hanswers Hp. unfold run, generate_plan_handler.
  destruct generate_plan; [| exact Hp].
  destruct (Py.truthy (destination f) && date_truthy date (start_date date f)
            && date_truthy date (end_date date f)); [| exact Hp].
  destruct (agent_run (construct_query date strftime f)) as [c | e] eqn:E.
  - simpl. rewrite <- app_assoc. simpl.
    rewrite (paired_app _ (List.length messages) messages (le_n _) Hp).
    reflexivity.
  - exfalso. exact (Hanswers _ _ E).
Qed.

End History.

(** C8, evaluated.  The agent raises on a first request and answers a
    second one.  After the first run the history holds a user turn with no
    assistant turn; after the second it holds two user turns and one
    assistant turn, and the display loop shows the second prompt as the
    answer to the first and drops the assistant's answer. *)
Theorem agent_error_leaves_unpaired_turn :
  let strftime := fun _ : unit => "Jan 01, 2025" in
  let paris :=
    Main.mk_form "DEL" "Paris" tt tt 2 "" [] "Any" "" in
  let rome :=
    Main.mk_form "DEL" "Rome" tt tt 2 "" [] "Any" "" in
  let raising := fun _ : string => Main.agent_raised "rate limit reached" in
  let answering :=
    fun _ : string => Main.agent_response (Some "# Rome in two days") in
  let q1 := Main.construct_query unit strftime paris in
  let q2 := Main.construct_query unit strftime rome in
  let first := Main.run unit strftime raising true paris [] in
  let second := Main.run unit strftime answering true rome (fst first) in
  fst first = [Main.mk_message Main.user q1]
  /\ snd first = [Main.st_error "Error fetching response: rate limit reached"]
  /\ fst second
     = [Main.mk_message Main.user q1; Main.mk_message Main.user q2;
        Main.mk_message Main.assistant "# Rome in two days"]
  /\ snd second = [Main.travel_plan q1 q2]
  /\ Main.paired (fst first) = false
  /\ Main.paired (fst second) = false
  /\ Main.reachable unit strftime (fst second).
Proof.
  cbv zeta.
  repeat (split; [reflexivity |]).
  apply Main.reachable_run. apply Main.reachable_run. apply Main.reachable_init.
Qed.

(* ------------------------------------------------------------------ *)
(** ** The document renderer of [test.py]: images                      *)
(* ------------------------------------------------------------------ *)

Section ImgRenderer.

Import Pdf Blocks.

Variable markdown_markdown : string -> string.
Variable BeautifulSoup : string -> list Html.node.
Variable fetch_image : option string -> TestApp.fetch_outcome.

Local Notation "'pdf_elements'" :=
  (TestApp.pdf_elements markdown_markdown BeautifulSoup fetch_image).
Local Notation "'visited'" :=
  (ImgBlocks.visited markdown_markdown BeautifulSoup).
Local Notation "'walk'" := (ImgBlocks.walk fetch_image).

Lemma img_process_element_emit (st : TestApp.state) (e : Html.node) :
  TestApp.process_element fetch_image st e
  = (fst st ++ ImgBlocks.emit fetch_image e,
     snd st ++ ImgBlocks.warn fetch_image e).
Proof.
  unfold ImgBlocks.emit, ImgBlocks.warn, TestApp.process_element; cbv zeta.
  destruct st as [elements warnings].
  generalize (Html.name_of e) as nm; intro nm.
  name_cases nm; simpl; rewrite ?app_nil_r; try reflexivity.
  all: destruct (fetch_image (Html.get "src" e)) as [msg | code [msg | png h]];
    simpl; rewrite ?app_nil_r; try reflexivity.
  all: destruct (code =? 200)%Z; simpl; rewrite ?app_nil_r; reflexivity.
Qed.

Lemma img_fold_process_element (tags : list Html.node) :
  forall st,
    fst (fold_left (TestApp.process_element fetch_image) tags st)
    = fst st ++ walk tags.
Proof.
  induction tags as [|e tags IH]; intro st; simpl.
  - now rewrite app_nil_r.
  - rewrite IH, img_process_element_emit. simpl. now rewrite <- app_assoc.
Qed.

(** An image tag whose fetch fails appends nothing. *)
Lemma failed_image_emits_nothing (img : Html.node) :
  Html.name_of img = "img" ->
  ImgBlocks.fetch_fails (fetch_image (Html.get "src" img)) = true ->
  ImgBlocks.emit fetch_image img = [].
Proof.
  intros Hname Hfail.
  unfold ImgBlocks.emit, TestApp.process_element; cbv zeta.
  rewrite Hname. simpl.
  destruct (fetch_image (Html.get "src" img)) as [msg | code [msg | png h]];
    simpl in *; try reflexivity.
  - destruct (code =? 200)%Z; reflexivity.
  - destruct (code =? 200)%Z; [discriminate | reflexivity].
Qed.

Lemma img_walk_app (l1 l2 : list Html.node) :
  walk (l1 ++ l2) = walk l1 ++ walk l2.
Proof. apply flat_map_app. Qed.

Lemma img_pdf_elements_shape (markdown_text destination travel_dates : string) :
  fst (pdf_elements markdown_text destination travel_dates)
  = header destination travel_dates
      ++ walk (visited markdown_text)
      ++ match walk (visited markdown_text) with
         | [] => flat_map line_paragraph (non_empty_lines markdown_text)
         | _ :: _ => []
         end
      ++ footer_part.
Proof.
  unfold TestApp.pdf_elements; cbv zeta.
  fold (ImgBlocks.visited markdown_markdown BeautifulSoup markdown_text).
  fold (header destination travel_dates).
  cbn [fst]. rewrite img_fold_process_element. cbn [fst].
  destruct (walk (visited markdown_text)) as [|w ws].
  - rewrite app_nil_r.
    change (List.length (header destination travel_dates) <=? 4)%nat with true.
    cbv iota.
    change (fold_left TestApp.add_line) with (fold_left Globe.add_line).
    rewrite fold_add_line. reflexivity.
  - assert (Hlen : (List.length (header destination travel_dates ++ w :: ws)
                    <=? 4)%nat = false).
    { rewrite length_app. reflexivity. }
    rewrite Hlen. now rewrite <- app_assoc.
Qed.

Lemma emit_key (n n' : Html.node) :
  ImgBlocks.key n = ImgBlocks.key n' ->
  ImgBlocks.emit fetch_image n = ImgBlocks.emit fetch_image n'.
Proof.
  unfold ImgBlocks.key. intro H. injection H as Hname Htext Hsrc.
  unfold ImgBlocks.emit, TestApp.process_element; cbv zeta.
  now rewrite Hname, Htext, Hsrc.
Qed.

Lemma walk_keys (l : list Html.node) :
  forall l', map ImgBlocks.key l = map ImgBlocks.key l' -> walk l = walk l'.
Proof.
  induction l as [|n l IH]; intros [|n' l'] H; cbn [map] in H;
    try discriminate.
  - reflexivity.
  - assert (Hn : ImgBlocks.key n = ImgBlocks.key n') by congruence.
    assert (Hl : map ImgBlocks.key l = map ImgBlocks.key l') by congruence.
    unfold ImgBlocks.walk. simpl.
    rewrite (emit_key n n' Hn). f_equal. exact (IH l' Hl).
Qed.

Lemma walk_without_failed (drop : Html.node -> bool) (l : list Html.node) :
  (forall n, In n l -> drop n = true ->
     Html.name_of n = "img"
     /\ ImgBlocks.fetch_fails (fetch_image (Html.get "src" n)) = true) ->
  walk (filter (fun n => negb (drop n)) l) = walk l.
Proof.
  induction l as [|n l IH]; intro Hdrop; [reflexivity |].
  assert (IH' := IH (fun x Hx => Hdrop x (or_intror Hx))).
  simpl. destruct (drop n) eqn:E; simpl.
  - destruct (Hdrop n (or_introl eq_refl) E) as [Hname Hfail].
    unfold ImgBlocks.walk at 2. simpl.
    rewrite (failed_image_emits_nothing n Hname Hfail). exact IH'.
  - unfold ImgBlocks.walk in *. simpl. now rewrite IH'.
Qed.


Lemma failed_img_spec (n : Html.node) :
  ImgBlocks.failed_img fetch_image n = true ->
  (exists attrs, n = Html.Tag "img" attrs [])
  /\ Html.name_of n = "img"
  /\ ImgBlocks.fetch_fails (fetch_image (Html.get "src" n)) = true.
Proof.
  destruct n as [nm attrs [|c cs] | s]; cbn [ImgBlocks.failed_img];
    try discriminate.
  intro H. apply andb_prop in H. destruct H as [Hname Hfail].
  apply String.eqb_eq in Hname. subst nm.
  split; [now exists attrs | split; [reflexivity | exact Hfail]].
Qed.

(** Taking the failing image tags out of the parsed tree changes nothing
    of what the walk appends. *)
Lemma failed_images_pruned (markdown_text markdown_text' : string) :
  BeautifulSoup (markdown_markdown markdown_text')
  = flat_map (ImgBlocks.prune (ImgBlocks.failed_img fetch_image))
      (BeautifulSoup (markdown_markdown markdown_text)) ->
  walk (visited markdown_text') = walk (visited markdown_text).
Proof.
  intro Hpruned. unfold ImgBlocks.visited. rewrite Hpruned.
  rewrite (walk_keys _ _
             (prune_visited_keys _ (ImgBlocks.failed_img fetch_image)
                (fun n H => proj1 (failed_img_spec n H)) _)).
  apply walk_without_failed.
  intros n _ H. exact (proj2 (failed_img_spec n H)).
Qed.

End ImgRenderer.



(* ------------------------------------------------------------------ *)
(** ** The image extractor: the search for images                      *)
(* ------------------------------------------------------------------ *)

Section ImageSearch.

Import TestApp Refs.

Variable serpapi_api_key : option string.
Variable serpapi_search : string -> string -> search_outcome.
Variable st_image_ok : string -> string -> bool.

Local Notation "'display_images'" :=
  (display_images_from_markdown serpapi_api_key serpapi_search st_image_ok).

(** Showing the results appends images only, at most one per result. *)
Lemma show_results_trace (destination : string)
  (results : list (nat * img_result)) :
  forall trace,
    exists images,
      fold_left (show_result st_image_ok destination) results trace
      = trace ++ images
      /\ List.length images <= List.length results
      /\ forallb is_image images = true.
Proof.
  induction results as [|r results IH]; intro trace.
  - exists []. simpl. now rewrite app_nil_r.
  - simpl.
    destruct (IH (show_result st_image_ok destination trace r))
      as [images [Hfold [Hlen Himg]]].
    rewrite Hfold. unfold show_result.
    destruct (original (snd r)) as [img_url|];
      [destruct (Py.truthy img_url);
         [destruct (st_image_ok img_url _) |] |].
    2-4: exists images; repeat split; [lia | exact Himg].
    eexists (_ :: images). rewrite <- app_assoc. simpl.
    repeat split; [lia | exact Himg].
Qed.

Lemma filter_images_none (images : list effect) :
  forallb is_image images = true -> filter is_request images = [].
Proof.
  induction images as [|e images IH]; [reflexivity |].
  simpl. intro H. apply andb_prop in H. destruct H as [He Hrest].
  destruct e; try discriminate. simpl. now apply IH.
Qed.

Lemma filter_images_all (images : list effect) :
  forallb is_image images = true -> filter is_image images = images.
Proof.
  induction images as [|e images IH]; [reflexivity |].
  simpl. intro H. apply andb_prop in H. destruct H as [He Hrest].
  rewrite He. now rewrite IH.
Qed.

(** One search, with the query of the destination, and at most three
    images. *)
Lemma search_images_trace (destination api_key : string) :
  filter is_request
    (search_images serpapi_search st_image_ok destination api_key)
  = [requests_get "https://serpapi.com/search"
       (destination ++ " travel attractions") "isch" api_key]
  /\ List.length
       (filter is_image
          (search_images serpapi_search st_image_ok destination api_key))
     <= 3.
Proof.
  unfold search_images; cbv zeta.
  destruct (serpapi_search _ api_key) as [e | [images_results|]].
  - simpl. split; [reflexivity | lia].
  - destruct (show_results_trace destination
                (combine (seq 0 (List.length (firstn 3 images_results)))
                   (firstn 3 images_results))
                [requests_get "https://serpapi.com/search"
                   (destination ++ " travel attractions") "isch" api_key])
      as [images [Hfold [Hlen Himg]]].
    rewrite Hfold. simpl.
    rewrite (filter_images_none images Himg), (filter_images_all images Himg).
    split; [reflexivity |].
    rewrite length_combine, length_seq, Nat.min_id in Hlen.
    pose proof (firstn_le_length 3 images_results). lia.
  - simpl. split; [reflexivity | lia].
Qed.


End ImageSearch.



(* ------------------------------------------------------------------ *)
(** ** Scanning: [finditer] and [replace] unfolded                     *)
(* ------------------------------------------------------------------ *)

Section Scanning.

Local Open Scope string_scope.

Lemma strip_prefix_length (p s r : string) :
  Py.strip_prefix p s = Some r ->
  String.length s = String.length p + String.length r.
Proof.
  intro H. apply strip_prefix_some in H. subst s. apply length_append.
Qed.

Lemma lazy_rparen_length (s : string) :
  forall g rest,
    Re.lazy_rparen s = Some (g, rest) -> String.length rest < String.length s.
Proof.
  induction s as [|c s IH]; intros g rest H; [discriminate |].
  cbn [Re.lazy_rparen] in H.
  destruct (Py.strip_prefix ")" (String c s)) as [r|] eqn:E.
  - injection H as _ <-. apply strip_prefix_length in E. simpl in *. lia.
  - destruct (Re.is_newline c); [discriminate |].
    destruct (Re.lazy_rparen s) as [[g' rest']|] eqn:E'; [| discriminate].
    injection H as _ <-. specialize (IH g' rest' eq_refl). simpl. lia.
Qed.

Lemma lazy_alt_length (s : string) :
  forall alt url rest,
    Re.lazy_alt s = Some (alt, url, rest) ->
    String.length rest < String.length s.
Proof.
  induction s as [|c s IH]; intros alt url rest H.
  - simpl in H. discriminate.
  - cbn [Re.lazy_alt] in H.
    destruct (match Py.strip_prefix "](" (String c s) with
              | Some s2 => Re.lazy_rparen s2
              | None => None
              end) as [[u r]|] eqn:E.
    + injection H as _ _ <-.
      destruct (Py.strip_prefix "](" (String c s)) as [s2|] eqn:E2;
        [| discriminate].
      apply strip_prefix_length in E2. apply lazy_rparen_length in E.
      simpl in E2. simpl. lia.
    + destruct (Re.is_newline c); [discriminate |].
      destruct (Re.lazy_alt s) as [[[a u] r]|] eqn:E3; [| discriminate].
      injection H as _ _ <-. specialize (IH a u r eq_refl). simpl. lia.
Qed.

Lemma match_image_length (s : string) (m : Re.image_match) (rest : string) :
  Re.match_image s = Some (m, rest) -> String.length rest < String.length s.
Proof.
  unfold Re.match_image.
  destruct (Py.strip_prefix "![" s) as [s1|] eqn:E; [| discriminate].
  destruct (Re.lazy_alt s1) as [[[a u] r]|] eqn:E1; [| discriminate].
  intro H. injection H as _ <-.
  apply strip_prefix_length in E. apply lazy_alt_length in E1. lia.
Qed.

(** Any fuel above the length of the text gives the same matches. *)
Lemma finditer_from_fuel :
  forall f1 f2 s,
    String.length s < f1 -> String.length s < f2 ->
    Re.finditer_from f1 s = Re.finditer_from f2 s.
Proof.
  induction f1 as [|f1 IH]; intros f2 s H1 H2; [lia |].
  destruct f2 as [|f2]; [lia |].
  cbn [Re.finditer_from].
  destruct (Re.match_image s) as [[m rest]|] eqn:E.
  - apply match_image_length in E. f_equal. apply IH; lia.
  - destruct s as [|c s]; [reflexivity |]. simpl in *. apply IH; lia.
Qed.

Lemma finditer_from_S (fuel : nat) (s : string) :
  Re.finditer_from (S fuel) s
  = match Re.match_image s with
    | Some (m, rest) => m :: Re.finditer_from fuel rest
    | None =>
        match s with
        | "" => []
        | String _ s' => Re.finditer_from fuel s'
        end
    end.
Proof. reflexivity. Qed.

Lemma finditer_skip (c : ascii) (s : string) :
  Re.match_image (String c s) = None ->
  Re.finditer (String c s) = Re.finditer s.
Proof.
  intro H. unfold Re.finditer.
  rewrite (finditer_from_S (String.length (String c s)) (String c s)), H.
  apply finditer_from_fuel; simpl; lia.
Qed.

Lemma finditer_match (s : string) (m : Re.image_match) (rest : string) :
  Re.match_image s = Some (m, rest) ->
  Re.finditer s = m :: Re.finditer rest.
Proof.
  intro H. unfold Re.finditer.
  rewrite (finditer_from_S (String.length s) s), H.
  f_equal. apply match_image_length in H.
  apply finditer_from_fuel; lia.
Qed.

Lemma replace_from_fuel (old new : string) :
  old <> "" ->
  forall f1 f2 s,
    String.length s < f1 -> String.length s < f2 ->
    Py.replace_from f1 old new s = Py.replace_from f2 old new s.
Proof.
  intro Hold.
  induction f1 as [|f1 IH]; intros f2 s H1 H2; [lia |].
  destruct f2 as [|f2]; [lia |].
  cbn [Py.replace_from].
  destruct (Py.strip_prefix old s) as [rest|] eqn:E.
  - apply strip_prefix_length in E.
    assert (0 < String.length old) by (destruct old; [congruence | simpl; lia]).
    f_equal. apply IH; lia.
  - destruct s as [|c s]; [reflexivity |]. simpl in *. f_equal. apply IH; lia.
Qed.

Lemma replace_unfold (old new s : string) :
  old <> "" ->
  Py.replace old new s = Py.replace_from (S (String.length s)) old new s.
Proof.
  intro Hold. unfold Py.replace.
  destruct (String.eqb_spec old ""); [contradiction | reflexivity].
Qed.

Lemma replace_nil (old new : string) : old <> "" -> Py.replace old new "" = "".
Proof.
  intro Hold. rewrite replace_unfold by assumption.
  destruct old; [congruence | reflexivity].
Qed.

Lemma replace_from_S (fuel : nat) (old new s : string) :
  Py.replace_from (S fuel) old new s
  = match Py.strip_prefix old s with
    | Some rest => new ++ Py.replace_from fuel old new rest
    | None =>
        match s with
        | "" => ""
        | String c s' => String c (Py.replace_from fuel old new s')
        end
    end.
Proof. reflexivity. Qed.

Lemma replace_skip (old new : string) (c : ascii) (s : string) :
  old <> "" ->
  Py.strip_prefix old (String c s) = None ->
  Py.replace old new (String c s) = String c (Py.replace old new s).
Proof.
  intros Hold H. rewrite !replace_unfold by assumption.
  rewrite (replace_from_S (String.length (String c s)) old new (String c s)), H.
  reflexivity.
Qed.

Lemma replace_match (old new s rest : string) :
  old <> "" ->
  Py.strip_prefix old s = Some rest ->
  Py.replace old new s = new ++ Py.replace old new rest.
Proof.
  intros Hold H. rewrite !replace_unfold by assumption.
  rewrite (replace_from_S (String.length s) old new s), H.
  f_equal. apply strip_prefix_length in H.
  assert (0 < String.length old) by (destruct old; [congruence | simpl; lia]).
  apply replace_from_fuel; try assumption; lia.
Qed.

End Scanning.

(* ------------------------------------------------------------------ *)
(** ** Texts made of plain stretches and references                    *)
(* ------------------------------------------------------------------ *)

Section Pieces.

Import Refs.

Local Open Scope string_scope.

Lemma lacks_cons (c x : ascii) (s : string) :
  lacks c (String x s) = true -> (x =? c)%char = false /\ lacks c s = true.
Proof.
  cbn [lacks]. intro H. apply andb_prop in H. destruct H as [H1 H2].
  split; [now apply negb_true_iff in H1 | exact H2].
Qed.

Lemma lacks_append (c : ascii) (a b : string) :
  lacks c (a ++ b) = lacks c a && lacks c b.
Proof.
  induction a as [|x a IH]; [reflexivity |].
  cbn [append lacks]. rewrite IH. now rewrite andb_assoc.
Qed.

Lemma strip_prefix_head_neq (p0 c : ascii) (p s : string) :
  (c =? p0)%char = false ->
  Py.strip_prefix (String p0 p) (String c s) = None.
Proof.
  intro H. cbn [Py.strip_prefix]. rewrite Ascii.eqb_sym, H. reflexivity.
Qed.

Lemma lazy_rparen_exact (url rest : string) :
  lacks ")" url = true -> lacks "010" url = true ->
  Re.lazy_rparen (url ++ ")" ++ rest) = Some (url, rest).
Proof.
  induction url as [|c url IH]; intros Hp Hn.
  - cbn [append Re.lazy_rparen Py.strip_prefix].
    rewrite Ascii.eqb_refl. reflexivity.
  - apply lacks_cons in Hp. destruct Hp as [Hc Hp].
    apply lacks_cons in Hn. destruct Hn as [Hcn Hn].
    cbn [append Re.lazy_rparen].
    rewrite (strip_prefix_head_neq ")" c "" _ Hc).
    unfold Re.is_newline. rewrite Hcn.
    change (String ")" rest) with (")" ++ rest).
    now rewrite (IH Hp Hn).
Qed.

Lemma lazy_alt_exact (alt url rest : string) :
  lacks "]" alt = true -> lacks "010" alt = true ->
  lacks ")" url = true -> lacks "010" url = true ->
  Re.lazy_alt (alt ++ "](" ++ url ++ ")" ++ rest) = Some (alt, url, rest).
Proof.
  intros Ha Han Hu Hun.
  induction alt as [|c alt IH].
  - cbn [append Re.lazy_alt Py.strip_prefix].
    rewrite !Ascii.eqb_refl.
    change (String ")" rest) with (")" ++ rest).
    now rewrite (lazy_rparen_exact url rest Hu Hun).
  - apply lacks_cons in Ha. destruct Ha as [Hc Ha].
    apply lacks_cons in Han. destruct Han as [Hcn Han].
    cbn [append Re.lazy_alt].
    rewrite (strip_prefix_head_neq "]" c "(" _ Hc).
    unfold Re.is_newline. rewrite Hcn.
    change (String "]" (String "(" (url ++ String ")" rest)))
      with ("](" ++ url ++ ")" ++ rest).
    now rewrite (IH Ha Han).
Qed.

Lemma group0_append (alt url rest : string) :
  Re.group0 (Re.mk_match alt url) ++ rest
  = "![" ++ alt ++ "](" ++ url ++ ")" ++ rest.
Proof.
  unfold Re.group0. cbn [Re.alt_text Re.image_url].
  now rewrite !append_assoc.
Qed.

(** At the start of a well-formed reference the pattern matches that
    reference and nothing more. *)
Lemma match_image_exact (alt url rest : string) :
  well_formed (ref alt url) = true ->
  Re.match_image (Re.group0 (Re.mk_match alt url) ++ rest)
  = Some (Re.mk_match alt url, rest).
Proof.
  cbn [well_formed]. intro H.
  repeat (apply andb_prop in H; destruct H as [H ?]).
  rewrite group0_append. unfold Re.match_image.
  rewrite strip_prefix_append.
  now rewrite lazy_alt_exact.
Qed.

Lemma match_image_plain (c : ascii) (s : string) :
  (c =? "!")%char = false -> Re.match_image (String c s) = None.
Proof.
  intro H. unfold Re.match_image.
  now rewrite (strip_prefix_head_neq "!" c "[" s H).
Qed.

Lemma finditer_plain (s rest : string) :
  lacks "!" s = true -> Re.finditer (s ++ rest) = Re.finditer rest.
Proof.
  induction s as [|c s IH]; intro H; [reflexivity |].
  apply lacks_cons in H. destruct H as [Hc H].
  cbn [append]. rewrite finditer_skip by now apply match_image_plain.
  now apply IH.
Qed.

Lemma render_cons (p : piece) (ps : list piece) :
  render (p :: ps) = render_piece p ++ render ps.
Proof. unfold render. cbn [map]. apply concat_empty_cons. Qed.

(** The references [finditer] finds in a well-formed text are its
    reference pieces, in order. *)
Lemma finditer_render (ps : list piece) :
  forallb well_formed ps = true -> Re.finditer (render ps) = refs ps.
Proof.
  induction ps as [|p ps IH]; intro H; [reflexivity |].
  cbn [forallb] in H. apply andb_prop in H. destruct H as [Hp Hps].
  rewrite render_cons. destruct p as [s | alt url]; cbn [render_piece refs flat_map].
  - rewrite finditer_plain by exact Hp. now apply IH.
  - rewrite (finditer_match _ _ _ (match_image_exact alt url _ Hp)).
    cbn [app]. f_equal. now apply IH.
Qed.

End Pieces.

Section Removal.

Import Refs.

Local Open Scope string_scope.

Lemma group0_nonempty (m : Re.image_match) : Re.group0 m <> "".
Proof. unfold Re.group0. discriminate. Qed.

Lemma replace_plain (m : Re.image_match) (s rest : string) :
  lacks "!" s = true ->
  Py.replace (Re.group0 m) "" (s ++ rest)
  = s ++ Py.replace (Re.group0 m) "" rest.
Proof.
  induction s as [|c s IH]; intro H; [reflexivity |].
  apply lacks_cons in H. destruct H as [Hc H].
  cbn [append]. rewrite replace_skip.
  - now rewrite IH.
  - apply group0_nonempty.
  - unfold Re.group0. cbn [append]. now apply strip_prefix_head_neq.
Qed.

Lemma replace_plain_char (m : Re.image_match) (c : ascii) (s : string) :
  (c =? "!")%char = false ->
  Py.replace (Re.group0 m) "" (String c s)
  = String c (Py.replace (Re.group0 m) "" s).
Proof.
  intro Hc. apply replace_skip; [apply group0_nonempty |].
  unfold Re.group0. cbn [append]. now apply strip_prefix_head_neq.
Qed.

(** Two texts that agree and are both cut at their first [c] agree on
    both sides of the cut. *)
Lemma split_first (c : ascii) (a : string) :
  forall a' x x',
    lacks c a = true -> lacks c a' = true ->
    a ++ String c x = a' ++ String c x' -> a = a' /\ x = x'.
Proof.
  induction a as [|y a IH]; intros [|y' a'] x x' Ha Ha' E; cbn [append] in E.
  - injection E as ->. split; reflexivity.
  - injection E as <- _. apply lacks_cons in Ha'. destruct Ha' as [Hy _].
    rewrite Ascii.eqb_refl in Hy. discriminate.
  - injection E as -> _. apply lacks_cons in Ha. destruct Ha as [Hy _].
    rewrite Ascii.eqb_refl in Hy. discriminate.
  - injection E as -> E. apply lacks_cons in Ha. apply lacks_cons in Ha'.
    destruct (IH a' x x' (proj2 Ha) (proj2 Ha') E) as [-> ->].
    split; reflexivity.
Qed.

Lemma prefix_same_ref (alt url alt' url' rest rest' : string) :
  well_formed (ref alt url) = true ->
  well_formed (ref alt' url') = true ->
  Py.strip_prefix (Re.group0 (Re.mk_match alt url))
    (Re.group0 (Re.mk_match alt' url') ++ rest) = Some rest' ->
  alt' = alt /\ url' = url.
Proof.
  cbn [well_formed]. intros H H' E.
  repeat (apply andb_prop in H; destruct H as [H ?]).
  repeat (apply andb_prop in H'; destruct H' as [H' ?]).
  apply strip_prefix_some in E. rewrite !group0_append in E.
  cbn [append] in E. injection E as E.
  destruct (split_first "]" alt' alt _ _ H' H E) as [-> E'].
  injection E' as E'.
  destruct (split_first ")" url' url _ _ ltac:(assumption) ltac:(assumption) E')
    as [-> _].
  split; reflexivity.
Qed.

Lemma replace_ref_same (m : Re.image_match) (rest : string) :
  Py.replace (Re.group0 m) "" (Re.group0 m ++ rest)
  = Py.replace (Re.group0 m) "" rest.
Proof.
  rewrite (replace_match (Re.group0 m) "" _ rest (group0_nonempty m)
             (strip_prefix_append _ _)).
  reflexivity.
Qed.

Lemma replace_ref_other (alt url alt' url' rest : string) :
  well_formed (ref alt url) = true ->
  well_formed (ref alt' url') = true ->
  same_ref (Re.mk_match alt url) (ref alt' url') = false ->
  Py.replace (Re.group0 (Re.mk_match alt url)) ""
    (Re.group0 (Re.mk_match alt' url') ++ rest)
  = Re.group0 (Re.mk_match alt' url')
      ++ Py.replace (Re.group0 (Re.mk_match alt url)) "" rest.
Proof.
  intros Hwf Hwf' Hother.
  assert (Hnone : Py.strip_prefix (Re.group0 (Re.mk_match alt url))
            (Re.group0 (Re.mk_match alt' url') ++ rest) = None).
  { destruct (Py.strip_prefix _ _) as [rest'|] eqn:E; [| reflexivity].
    destruct (prefix_same_ref _ _ _ _ _ _ Hwf Hwf' E) as [-> ->].
    cbn [same_ref Re.alt_text Re.image_url] in Hother.
    rewrite !String.eqb_refl in Hother. discriminate. }
  cbn [well_formed] in Hwf'.
  repeat (apply andb_prop in Hwf'; destruct Hwf' as [Hwf' ?]).
  rewrite group0_append in Hnone. rewrite !group0_append.
  cbn [append] in *.
  rewrite (replace_skip _ "" _ _ (group0_nonempty _) Hnone).
  f_equal.
  rewrite replace_plain_char by reflexivity. f_equal.
  rewrite replace_plain by assumption. f_equal.
  rewrite !replace_plain_char by reflexivity. do 2 f_equal.
  rewrite replace_plain by assumption.
  now rewrite replace_plain_char by reflexivity.
Qed.

End Removal.

(* ------------------------------------------------------------------ *)
(** ** The image extractor: the references of the text                 *)
(* ------------------------------------------------------------------ *)

Section References.

Import TestApp Refs.

Variable serpapi_api_key : option string.
Variable serpapi_search : string -> string -> search_outcome.
Variable st_image_ok : string -> string -> bool.

Local Open Scope string_scope.

Local Notation "'display_images'" :=
  (display_images_from_markdown serpapi_api_key serpapi_search st_image_ok).

Lemma replace_render (alt url : string) (ps : list piece) :
  well_formed (ref alt url) = true ->
  forallb well_formed ps = true ->
  Py.replace (Re.group0 (Re.mk_match alt url)) "" (render ps)
  = render (filter (fun p => negb (same_ref (Re.mk_match alt url) p)) ps).
Proof.
  intros Hm. induction ps as [|p ps IH]; intro H.
  - apply replace_nil, group0_nonempty.
  - cbn [forallb] in H. apply andb_prop in H. destruct H as [Hp Hps].
    rewrite render_cons. cbn [filter].
    destruct p as [s | alt' url']; cbn [render_piece].
    + cbn [same_ref negb]. rewrite render_cons, replace_plain by exact Hp.
      cbn [render_piece]. now rewrite IH.
    + destruct (same_ref (Re.mk_match alt url) (ref alt' url')) eqn:E;
        cbn [negb].
      * cbn [same_ref Re.alt_text Re.image_url] in E.
        apply andb_prop in E. destruct E as [Ea Eu].
        apply String.eqb_eq in Ea. apply String.eqb_eq in Eu. subst alt' url'.
        rewrite replace_ref_same. now apply IH.
      * rewrite render_cons, (replace_ref_other _ _ _ _ _ Hm Hp E).
        cbn [render_piece]. now rewrite IH.
Qed.

Lemma process_match_unfold (st : list effect * string) (m : Re.image_match) :
  process_match st_image_ok st m
  = if displays st_image_ok m
    then ((fst st ++ [shown m])%list, Py.replace (Re.group0 m) "" (snd st))
    else st.
Proof. reflexivity. Qed.

(** The loop displays the references that display, in their order. *)
Lemma loop_trace (ms : list Re.image_match) :
  forall trace text,
    fst (fold_left (process_match st_image_ok) ms (trace, text))
    = (trace ++ map shown (filter (displays st_image_ok) ms))%list.
Proof.
  induction ms as [|m ms IH]; intros trace text; cbn [fold_left].
  - cbn [filter map fst]. now rewrite app_nil_r.
  - rewrite process_match_unfold. cbn [filter fst snd].
    destruct (displays st_image_ok m).
    + rewrite IH. cbn [map]. now rewrite <- app_assoc.
    + apply IH.
Qed.

Lemma filter_andb {A : Type} (f g : A -> bool) (l : list A) :
  filter f (filter g l) = filter (fun x => g x && f x) l.
Proof.
  induction l as [|x l IH]; [reflexivity |].
  cbn [filter]. destruct (g x); cbn [filter andb]; now rewrite IH.
Qed.

Lemma forallb_filter {A : Type} (f g : A -> bool) (l : list A) :
  forallb f l = true -> forallb f (filter g l) = true.
Proof.
  induction l as [|x l IH]; [reflexivity |].
  cbn [forallb filter]. intro H. apply andb_prop in H. destruct H as [Hx Hl].
  destruct (g x); [cbn [forallb]; rewrite Hx |]; now apply IH.
Qed.

(** The loop deletes from a well-formed text the references that
    display. *)
Lemma loop_text (ms : list Re.image_match) :
  forall qs trace,
    forallb well_formed qs = true ->
    forallb (fun m => well_formed (ref (Re.alt_text m) (Re.image_url m))) ms
    = true ->
    snd (fold_left (process_match st_image_ok) ms (trace, render qs))
    = render (filter (fun p => negb (removed_by st_image_ok ms p)) qs).
Proof.
  induction ms as [|[alt url] ms IH]; intros qs trace Hqs Hms;
    cbn [fold_left].
  - cbn [snd]. f_equal. symmetry.
    rewrite (filter_ext _ (fun _ => true)).
    + clear. induction qs as [|q qs IH]; [reflexivity |].
      cbn [filter]. now rewrite IH.
    + intros [s | a u]; cbn [removed_by existsb]; [reflexivity |].
      now rewrite andb_false_r.
  - cbn [forallb Re.alt_text Re.image_url] in Hms.
    apply andb_prop in Hms. destruct Hms as [Hm Hms].
    rewrite process_match_unfold. cbn [fst snd].
    destruct (displays st_image_ok (Re.mk_match alt url)) eqn:D.
    + rewrite (replace_render alt url qs Hm Hqs).
      rewrite IH by (try apply forallb_filter; assumption).
      rewrite filter_andb. f_equal. apply filter_ext.
      intros [s | a u]; cbn [removed_by same_ref existsb negb andb];
        [reflexivity |].
      cbn [Re.alt_text Re.image_url].
      destruct ((a =? alt) && (u =? url)) eqn:E; cbn [negb andb orb].
      * apply andb_prop in E. destruct E as [Ea Eu].
        apply String.eqb_eq in Ea. apply String.eqb_eq in Eu. subst a u.
        now rewrite D.
      * reflexivity.
    + rewrite IH by assumption. f_equal. apply filter_ext.
      intros [s | a u]; cbn [removed_by same_ref existsb]; [reflexivity |].
      cbn [Re.alt_text Re.image_url].
      destruct ((a =? alt) && (u =? url)) eqn:E; cbn [orb]; [| reflexivity].
      apply andb_prop in E. destruct E as [Ea Eu].
      apply String.eqb_eq in Ea. apply String.eqb_eq in Eu. subst a u.
      rewrite D. reflexivity.
Qed.

Lemma refs_well_formed (ps : list piece) :
  forallb well_formed ps = true ->
  forallb (fun m => well_formed (ref (Re.alt_text m) (Re.image_url m)))
    (refs ps) = true.
Proof.
  induction ps as [|p ps IH]; [reflexivity |].
  cbn [forallb]. intro H. apply andb_prop in H. destruct H as [Hp Hps].
  destruct p as [s | alt url]; cbn [refs flat_map app forallb].
  - now apply IH.
  - cbn [Re.alt_text Re.image_url]. rewrite Hp. now apply IH.
Qed.

Lemma removed_by_refs (ps : list piece) (p : piece) :
  In p ps -> negb (removed_by st_image_ok (refs ps) p) = kept st_image_ok p.
Proof.
  intro Hin. destruct p as [s | alt url]; cbn [removed_by kept]; [reflexivity |].
  assert (Hex : existsb (fun m => same_ref m (ref alt url)) (refs ps) = true).
  { apply existsb_exists. exists (Re.mk_match alt url). split.
    - unfold refs. apply in_flat_map. exists (ref alt url).
      split; [exact Hin | now left].
    - cbn [same_ref Re.alt_text Re.image_url]. now rewrite !String.eqb_refl. }
  rewrite Hex. now rewrite andb_true_r.
Qed.


End References.



(** A history of two pairs and a lone user turn: the display shows the
    two pairs. *)
Lemma display_drops_unpaired_trailing_witness :
  let history :=
    [Main.mk_message Main.user "q1"; Main.mk_message Main.assistant "a1";
     Main.mk_message Main.user "q2"; Main.mk_message Main.assistant "a2"] in
  Nat.even (List.length history) = true
  /\ Main.display_travel_plans (history ++ [Main.mk_message Main.user "q3"])
     = [Main.travel_plan "q1" "a1"; Main.travel_plan "q2" "a2"].
Proof.
  intro history. split; [reflexivity |].
  rewrite (display_drops_unpaired_trailing history
             (Main.mk_message Main.user "q3") eq_refl).
  reflexivity.
Defined.

(** An agent that always answers keeps a paired history paired. *)
Lemma paired_while_agent_answers_witness :
  let agent := fun _ : string => Main.agent_response (Some "plan") in
  let rome := Main.mk_form "DEL" "Rome" tt tt 2 "" [] "Any" "" in
  let history :=
    [Main.mk_message Main.user "q1"; Main.mk_message Main.assistant "a1"] in
  Main.paired history = true
  /\ Main.paired
       (fst (Main.run unit (fun _ => "Jan 01, 2025") agent true rome history))
     = true.
Proof.
  intros agent rome history. split; [reflexivity |].
  apply (paired_while_agent_answers unit (fun _ => "Jan 01, 2025")
           agent true rome history).
  - intros prompt e. discriminate.
  - reflexivity.
Defined.

(** A raw paragraph holding one image whose fetch raises, and the same
    input with the image tag taken out. *)
Lemma failed_images_pruned_witness :
  let fetch_image := fun _ : option string =>
    TestApp.fetch_raised "connection refused" in
  Lib.BeautifulSoup (Lib.markdown_markdown Lib.frame_only)
  = flat_map (ImgBlocks.prune (ImgBlocks.failed_img fetch_image))
      (Lib.BeautifulSoup (Lib.markdown_markdown Lib.framed))
  /\ ImgBlocks.walk fetch_image
       (ImgBlocks.visited Lib.markdown_markdown Lib.BeautifulSoup Lib.frame_only)
     = ImgBlocks.walk fetch_image
         (ImgBlocks.visited Lib.markdown_markdown Lib.BeautifulSoup Lib.framed).
Proof.
  intro fetch_image. split; [reflexivity |].
  apply (failed_images_pruned Lib.markdown_markdown Lib.BeautifulSoup
           fetch_image Lib.framed Lib.frame_only).
  reflexivity.
Defined.


(** A form with every field filled in but the destination. *)
Lemma construct_query_empty_iff_witness :
  let strftime := fun _ : unit => "Jan 01, 2025" in
  Main.construct_query unit strftime
    (Main.mk_form "DEL" "" tt tt 2 "Luxury - Above ‚Çπ1,50,000"
       ["Adventure"] "Luxury Resorts" "window seat")
  = ""
  /\ Globe.construct_query unit strftime
       (Globe.mk_form "Delhi" "" tt tt 2 "Luxury - Above ₹1,50,000"
          ["Adventure"] "Luxury Resorts" "window seat")
     = "".
Proof.
  intro strftime.
  destruct (construct_query_empty_iff unit strftime) as [Hmain Hglobe].
  split; [apply Hmain | apply Hglobe]; reflexivity.
Defined.

(* ------------------------------------------------------------------ *)
(** ** The two renderers side by side                                  *)
(* ------------------------------------------------------------------ *)

Section TwoRenderers.

Import Pdf Blocks.

Variable markdown_markdown : string -> string.
Variable BeautifulSoup : string -> list Html.node.
Variable fetch_image : option string -> TestApp.fetch_outcome.

(** Asking [find_all] for fewer names gives the sub-list of the nodes with
    these names. *)
Lemma find_all_sub (names names' : list string) :
  (forall nm, Html.name_in names nm = true -> Html.name_in names' nm = true) ->
  forall soup,
    Html.find_all names soup
    = filter (fun x => Html.name_in names (Html.name_of x))
        (Html.find_all names' soup).
Proof.
  intro Hsub.
  assert (Hnode : forall n,
    Html.find_all_in names n
    = filter (fun x => Html.name_in names (Html.name_of x))
        (Html.find_all_in names' n)).
  { fix IH 1. intros [nm attrs children | s]; cbn [Html.find_all_in].
    - rewrite filter_app. f_equal.
      + destruct (Html.name_in names nm) eqn:E.
        * rewrite (Hsub _ E). cbn [filter Html.name_of]. now rewrite E.
        * destruct (Html.name_in names' nm); cbn [filter Html.name_of];
            rewrite ?E; reflexivity.
      + induction children as [|c cs IHcs]; cbn [flat_map]; [reflexivity |].
        now rewrite filter_app, <- IH, <- IHcs.
    - reflexivity. }
  unfold Html.find_all.
  induction soup as [|n soup IHsoup]; cbn [flat_map]; [reflexivity |].
  now rewrite filter_app, <- Hnode, <- IHsoup.
Qed.

Lemma visited_without_img (markdown_text : string) :
  Forall (fun n => Html.name_of n <> "img")
    (ImgBlocks.visited markdown_markdown BeautifulSoup markdown_text) ->
  Blocks.visited markdown_markdown BeautifulSoup markdown_text
  = ImgBlocks.visited markdown_markdown BeautifulSoup markdown_text.
Proof.
  intro Hnone. unfold Blocks.visited, ImgBlocks.visited in *.
  rewrite (find_all_sub _ ["h1"; "h2"; "h3"; "p"; "ul"; "li"; "img"]).
  - set (l := Html.find_all _ _) in *.
    assert (Hnamed : forall x, In x l ->
              Html.name_in ["h1"; "h2"; "h3"; "p"; "ul"; "li"; "img"]
                (Html.name_of x) = true)
      by (intros x Hx; exact (find_all_named _ _ x Hx)).
    clearbody l. induction l as [|x l IH]; [reflexivity |].
    inversion Hnone as [|? ? Hx Hl]; subst.
    cbn [filter].
    assert (Hin : Html.name_in ["h1"; "h2"; "h3"; "p"; "ul"; "li"]
                    (Html.name_of x) = true).
    { specialize (Hnamed x (or_introl eq_refl)).
      unfold Html.name_in in *. cbn [existsb] in *.
      destruct (String.eqb_spec (Html.name_of x) "img"); [contradiction |].
      now rewrite !orb_false_r in *. }
    rewrite Hin. f_equal. apply IH; [exact Hl |].
    intros y Hy. apply Hnamed. now right.
  - intros nm H. unfold Html.name_in in *. cbn [existsb] in *.
    destruct (String.eqb nm "h1"), (String.eqb nm "h2"),
      (String.eqb nm "h3"), (String.eqb nm "p"), (String.eqb nm "ul"),
      (String.eqb nm "li"); try reflexivity; discriminate H.
Qed.

Lemma process_element_agree (st : TestApp.state) (e : Html.node) :
  Html.name_of e <> "img" ->
  TestApp.process_element fetch_image st e
  = (Globe.process_element (fst st) e, snd st).
Proof.
  unfold TestApp.process_element, Globe.process_element; cbv zeta.
  destruct st as [elements warnings]. cbn [fst snd].
  generalize (Html.name_of e) as nm; intros nm Hnm.
  name_cases nm; try reflexivity.
  now elim Hnm.
Qed.

Lemma fold_process_element_agree (tags : list Html.node) :
  Forall (fun n => Html.name_of n <> "img") tags ->
  forall st,
    fold_left (TestApp.process_element fetch_image) tags st
    = (fold_left Globe.process_element tags (fst st), snd st).
Proof.
  induction 1 as [|e tags He Htags IH]; intro st; cbn [fold_left].
  - now destruct st.
  - rewrite (process_element_agree st e He), IH. reflexivity.
Qed.

(** When no image tag is visited, the renderer of [test.py] builds the
    document of the renderer of [globe.py], and warns of nothing. *)
Theorem renderers_agree_without_images
  (markdown_text destination travel_dates : string) :
  Forall (fun n => Html.name_of n <> "img")
    (ImgBlocks.visited markdown_markdown BeautifulSoup markdown_text) ->
  TestApp.pdf_elements markdown_markdown BeautifulSoup fetch_image
    markdown_text destination travel_dates
  = (Globe.pdf_elements markdown_markdown BeautifulSoup
       markdown_text destination travel_dates, []).
Proof.
  intro Hnone.
  unfold TestApp.pdf_elements, Globe.pdf_elements; cbv zeta.
  fold (ImgBlocks.visited markdown_markdown BeautifulSoup markdown_text).
  fold (Blocks.visited markdown_markdown BeautifulSoup markdown_text).
  rewrite (visited_without_img markdown_text Hnone).
  rewrite (fold_process_element_agree _ Hnone). cbn [fst snd].
  reflexivity.
Qed.

End TwoRenderers.

(** The Paris example has no image: the two renderers agree on it. *)
Lemma renderers_agree_without_images_witness :
  Forall (fun n => Html.name_of n <> "img")
    (ImgBlocks.visited Lib.markdown_markdown Lib.BeautifulSoup
       Lib.paris_markdown)
  /\ TestApp.pdf_elements Lib.markdown_markdown Lib.BeautifulSoup
       (fun _ => TestApp.fetch_raised "unused")
       Lib.paris_markdown "Paris" "May"
     = (Globe.pdf_elements Lib.markdown_markdown Lib.BeautifulSoup
          Lib.paris_markdown "Paris" "May", []).
Proof.
  assert (H : Forall (fun n => Html.name_of n <> "img")
                (ImgBlocks.visited Lib.markdown_markdown Lib.BeautifulSoup
                   Lib.paris_markdown)).
  { repeat constructor; discriminate. }
  split; [exact H |].
  exact (renderers_agree_without_images Lib.markdown_markdown
           Lib.BeautifulSoup (fun _ => TestApp.fetch_raised "unused")
           Lib.paris_markdown "Paris" "May" H).
Defined.

(* ------------------------------------------------------------------ *)
(** ** Images and warnings of the renderer of [test.py]                *)
(* ------------------------------------------------------------------ *)

Section ImgCounts.

Import Pdf Blocks.

Variable markdown_markdown : string -> string.
Variable BeautifulSoup : string -> list Html.node.
Variable fetch_image : option string -> TestApp.fetch_outcome.

Lemma img_fold_warnings (tags : list Html.node) :
  forall st,
    snd (fold_left (TestApp.process_element fetch_image) tags st)
    = snd st ++ flat_map (ImgBlocks.warn fetch_image) tags.
Proof.
  induction tags as [|e tags IH]; intro st; cbn [fold_left flat_map].
  - now rewrite app_nil_r.
  - rewrite IH, img_process_element_emit. cbn [snd].
    now rewrite <- app_assoc.
Qed.

(** One tag: an image of width 400 or a warning, and only for [img]. *)
Lemma emit_warn_count (e : Html.node) :
  forallb More.width_ok (ImgBlocks.emit fetch_image e) = true
  /\ List.length (filter More.is_image_flowable (ImgBlocks.emit fetch_image e))
     + List.length (ImgBlocks.warn fetch_image e)
     <= List.length (filter ImgBlocks.is_img [e]).
Proof.
  unfold ImgBlocks.emit, ImgBlocks.warn, ImgBlocks.is_img,
    TestApp.process_element; cbv zeta. cbn [filter].
  generalize (Html.name_of e) as nm; intro nm.
  name_cases nm; try (split; [reflexivity | cbn; lia]).
  destruct (fetch_image (Html.get "src" e)) as [msg | code [msg | png h]];
    try destruct (code =? 200)%Z; cbn; split; (reflexivity || lia).
Qed.

Lemma walk_warn_count (tags : list Html.node) :
  forallb More.width_ok (ImgBlocks.walk fetch_image tags) = true
  /\ List.length
       (filter More.is_image_flowable (ImgBlocks.walk fetch_image tags))
     + List.length (flat_map (ImgBlocks.warn fetch_image) tags)
     <= List.length (filter ImgBlocks.is_img tags).
Proof.
  induction tags as [|e tags [IHw IHc]]; [split; [reflexivity | cbn; lia] |].
  destruct (emit_warn_count e) as [Hw Hc].
  unfold ImgBlocks.walk in *. cbn [flat_map].
  rewrite forallb_app, filter_app, !length_app, Hw, IHw.
  split; [reflexivity |].
  cbn [filter] in Hc |- *.
  destruct (ImgBlocks.is_img e); cbn [List.length] in Hc |- *; lia.
Qed.

Lemma line_paragraph_plain (lines : list string) :
  forallb More.width_ok (flat_map line_paragraph lines) = true
  /\ filter More.is_image_flowable (flat_map line_paragraph lines) = [].
Proof.
  induction lines as [|l lines [IHw IHf]]; [split; reflexivity |].
  cbn [flat_map line_paragraph app forallb filter More.width_ok
       More.is_image_flowable andb].
  split; assumption.
Qed.

(** Every image of the document of [test.py] is 400 points wide, and the
    images of the document and the warnings together are at most as many
    as the [img] tags of the tree. *)
Theorem images_and_warnings_bounded
  (markdown_text destination travel_dates : string) :
  forallb More.width_ok
    (fst (TestApp.pdf_elements markdown_markdown BeautifulSoup fetch_image
            markdown_text destination travel_dates)) = true
  /\ List.length
       (filter More.is_image_flowable
          (fst (TestApp.pdf_elements markdown_markdown BeautifulSoup
                  fetch_image markdown_text destination travel_dates)))
     + List.length
         (snd (TestApp.pdf_elements markdown_markdown BeautifulSoup
                 fetch_image markdown_text destination travel_dates))
     <= List.length
          (filter ImgBlocks.is_img
             (ImgBlocks.visited markdown_markdown BeautifulSoup
                markdown_text)).
Proof.
  rewrite img_pdf_elements_shape.
  assert (Hsnd :
    snd (TestApp.pdf_elements markdown_markdown BeautifulSoup fetch_image
           markdown_text destination travel_dates)
    = flat_map (ImgBlocks.warn fetch_image)
        (ImgBlocks.visited markdown_markdown BeautifulSoup markdown_text)).
  { unfold TestApp.pdf_elements; cbv zeta. cbn [snd].
    now rewrite img_fold_warnings. }
  rewrite Hsnd.
  destruct (walk_warn_count
              (ImgBlocks.visited markdown_markdown BeautifulSoup
                 markdown_text)) as [Hw Hc].
  destruct (line_paragraph_plain (non_empty_lines markdown_text))
    as [Hlw Hlf].
  set (w := ImgBlocks.walk fetch_image _) in *.
  set (warnings := flat_map _ _) in *.
  rewrite !forallb_app, !filter_app, !length_app, Hw.
  destruct w as [|x w'] eqn:Ew.
  - rewrite Hlw, Hlf. split; [reflexivity |]. cbn in Hc |- *. lia.
  - split; [reflexivity |].
    change (filter More.is_image_flowable (header destination travel_dates))
      with (@nil flowable).
    cbn [filter app List.length More.is_image_flowable footer_part] in Hc |- *.
    lia.
Qed.

(** A text with a line that is not blank never gives an empty document:
    something stands between the four flowables of the header and the two
    of the footer, in [globe.py] and in [test.py]. *)
Theorem document_has_content
  (markdown_text destination travel_dates : string) :
  non_empty_lines markdown_text <> [] ->
  6 < List.length
        (Globe.pdf_elements markdown_markdown BeautifulSoup
           markdown_text destination travel_dates)
  /\ 6 < List.length
           (fst (TestApp.pdf_elements markdown_markdown BeautifulSoup
                   fetch_image markdown_text destination travel_dates)).
Proof.
  intro Hlines.
  assert (Hfall :
    0 < List.length (flat_map line_paragraph (non_empty_lines markdown_text))).
  { destruct (non_empty_lines markdown_text) as [|l ls]; [congruence |].
    cbn. lia. }
  split.
  - rewrite pdf_elements_shape.
    pose proof (walk_nil_iff
                  (Blocks.visited markdown_markdown BeautifulSoup
                     markdown_text)) as Hnil.
    rewrite !length_app.
    destruct (filter is_recognized _) as [|r rs].
    + cbn [List.length header footer_part]. lia.
    + destruct (walk _) as [|x w'].
      * assert (H : @nil Html.node = r :: rs) by (symmetry; now apply Hnil).
        discriminate H.
      * cbn [List.length header footer_part]. lia.
  - rewrite img_pdf_elements_shape. rewrite !length_app.
    destruct (ImgBlocks.walk fetch_image _) as [|x w'];
      cbn [List.length header footer_part]; lia.
Qed.

End ImgCounts.

(** The example of two lines: both renderers give a document with a
    body. *)
Lemma document_has_content_witness :
  Blocks.non_empty_lines Lib.two_lines <> []
  /\ 6 < List.length
           (Globe.pdf_elements Lib.markdown_markdown Lib.BeautifulSoup
              Lib.two_lines "Oslo" "May")
  /\ 6 < List.length
           (fst (TestApp.pdf_elements Lib.markdown_markdown Lib.BeautifulSoup
                   (fun _ => TestApp.fetch_raised "unused")
                   Lib.two_lines "Oslo" "May")).
Proof.
  assert (H : Blocks.non_empty_lines Lib.two_lines <> [])
    by (vm_compute; discriminate).
  split; [exact H |].
  exact (document_has_content Lib.markdown_markdown Lib.BeautifulSoup
           (fun _ => TestApp.fetch_raised "unused")
           Lib.two_lines "Oslo" "May" H).
Defined.

(* ------------------------------------------------------------------ *)
(** ** What the scan for image references finds                        *)
(* ------------------------------------------------------------------ *)

Section ScanSound.

Import Refs.

Local Open Scope string_scope.

Lemma strip_prefix_char_none (p0 c : ascii) (s : string) :
  Py.strip_prefix (String p0 "") (String c s) = None ->
  (c =? p0)%char = false.
Proof.
  cbn [Py.strip_prefix]. rewrite Ascii.eqb_sym.
  destruct (c =? p0)%char; [discriminate | reflexivity].
Qed.

Lemma lazy_rparen_sound (s : string) :
  forall g rest,
    Re.lazy_rparen s = Some (g, rest) ->
    s = g ++ ")" ++ rest /\ lacks ")" g = true /\ lacks "010" g = true.
Proof.
  induction s as [|c s IH]; intros g rest H; [discriminate |].
  cbn [Re.lazy_rparen] in H.
  destruct (Py.strip_prefix ")" (String c s)) as [r|] eqn:E.
  - injection H as <- <-. apply strip_prefix_some in E.
    repeat split. exact E.
  - apply strip_prefix_char_none in E.
    unfold Re.is_newline in H.
    destruct (c =? "010")%char eqn:En; [discriminate |].
    destruct (Re.lazy_rparen s) as [[g' rest']|] eqn:E'; [| discriminate].
    injection H as <- <-.
    destruct (IH g' rest' eq_refl) as [Hs [Hp Hn]].
    cbn [append lacks]. rewrite E, En, Hp, Hn.
    repeat split. now rewrite Hs at 1.
Qed.

Lemma lazy_alt_sound (s : string) :
  forall alt url rest,
    Re.lazy_alt s = Some (alt, url, rest) ->
    s = alt ++ "](" ++ url ++ ")" ++ rest
    /\ lacks "010" alt = true
    /\ lacks ")" url = true /\ lacks "010" url = true.
Proof.
  induction s as [|c s IH]; intros alt url rest H.
  - cbn in H. discriminate.
  - cbn [Re.lazy_alt] in H.
    destruct (match Py.strip_prefix "](" (String c s) with
              | Some s2 => Re.lazy_rparen s2
              | None => None
              end) as [[u r]|] eqn:E.
    + injection H as <- <- <-.
      destruct (Py.strip_prefix "](" (String c s)) as [s2|] eqn:E2;
        [| discriminate].
      apply strip_prefix_some in E2.
      destruct (lazy_rparen_sound s2 u r E) as [Hs [Hp Hn]].
      rewrite E2, Hs at 1. repeat split; assumption.
    + unfold Re.is_newline in H.
      destruct (c =? "010")%char eqn:En; [discriminate |].
      destruct (Re.lazy_alt s) as [[[a u] r]|] eqn:E3; [| discriminate].
      injection H as <- <- <-.
      destruct (IH a u r eq_refl) as [Hs [Han [Hp Hn]]].
      cbn [append lacks]. rewrite En, Han.
      repeat split; try assumption. now rewrite Hs at 1.
Qed.

Lemma match_image_sound (s : string) (m : Re.image_match) (rest : string) :
  Re.match_image s = Some (m, rest) ->
  s = Re.group0 m ++ rest
  /\ lacks "010" (Re.alt_text m) = true
  /\ lacks ")" (Re.image_url m) = true
  /\ lacks "010" (Re.image_url m) = true.
Proof.
  unfold Re.match_image.
  destruct (Py.strip_prefix "![" s) as [s1|] eqn:E; [| discriminate].
  destruct (Re.lazy_alt s1) as [[[a u] r]|] eqn:E1; [| discriminate].
  intro H. injection H as <- <-.
  apply strip_prefix_some in E.
  destruct (lazy_alt_sound s1 a u r E1) as [Hs [Han [Hp Hn]]].
  cbn [Re.alt_text Re.image_url].
  repeat split; try assumption.
  rewrite group0_append, E. now rewrite Hs at 1.
Qed.

Lemma occurs_unfold (sub s : string) :
  More.occurs sub s
  = match Py.strip_prefix sub s with
    | Some _ => true
    | None =>
        match s with
        | "" => false
        | String _ s' => More.occurs sub s'
        end
    end.
Proof. destruct s; reflexivity. Qed.

Lemma occurs_append (sub pre post : string) :
  More.occurs sub (pre ++ sub ++ post) = true.
Proof.
  induction pre as [|c pre IH].
  - cbn [append]. now rewrite occurs_unfold, strip_prefix_append.
  - rewrite occurs_unfold.
    destruct (Py.strip_prefix sub (String c pre ++ sub ++ post));
      [reflexivity | exact IH].
Qed.

Lemma finditer_from_sound (fuel : nat) :
  forall s m,
    In m (Re.finditer_from fuel s) ->
    (exists pre post, s = pre ++ Re.group0 m ++ post)
    /\ lacks "010" (Re.alt_text m) = true
    /\ lacks ")" (Re.image_url m) = true
    /\ lacks "010" (Re.image_url m) = true.
Proof.
  induction fuel as [|fuel IH]; intros s m Hin; [contradiction |].
  rewrite finditer_from_S in Hin.
  destruct (Re.match_image s) as [[m0 rest]|] eqn:E.
  - destruct (match_image_sound s m0 rest E) as [Hs Hl].
    destruct Hin as [<- | Hin].
    + split; [| exact Hl]. exists "", rest. exact Hs.
    + destruct (IH rest m Hin) as [[pre [post Hrest]] Hl'].
      split; [| exact Hl'].
      exists (Re.group0 m0 ++ pre), post.
      now rewrite Hs, Hrest, append_assoc.
  - destruct s as [|c s]; [contradiction |].
    destruct (IH s m Hin) as [[pre [post Hrest]] Hl'].
    split; [| exact Hl'].
    exists (String c pre), post. cbn [append]. now rewrite Hrest.
Qed.

Lemma finditer_from_count (fuel : nat) :
  forall s, 5 * List.length (Re.finditer_from fuel s) <= String.length s.
Proof.
  induction fuel as [|fuel IH]; intro s; [cbn; lia |].
  rewrite finditer_from_S.
  destruct (Re.match_image s) as [[m0 rest]|] eqn:E.
  - destruct (match_image_sound s m0 rest E) as [Hs _].
    specialize (IH rest). cbn [List.length].
    assert (Hlen : String.length s
                   = 5 + String.length (Re.alt_text m0)
                     + String.length (Re.image_url m0) + String.length rest).
    { rewrite Hs at 1. unfold Re.group0.
      rewrite !length_append. cbn [String.length]. lia. }
    lia.
  - destruct s as [|c s]; [cbn; lia |].
    specialize (IH s). cbn [String.length]. lia.
Qed.

(** Every reference the scan finds stands in the text as it is written:
    ["!["], the alternative text, ["]("], the address, [")"]; neither part
    holds a line break and the address holds no closing parenthesis.  A
    text of [n] characters holds at most [n / 5] references. *)
Theorem finditer_sound (s : string) :
  Forall (fun m =>
            More.occurs (Re.group0 m) s = true
            /\ lacks "010" (Re.alt_text m) = true
            /\ lacks ")" (Re.image_url m) = true
            /\ lacks "010" (Re.image_url m) = true)
    (Re.finditer s)
  /\ 5 * List.length (Re.finditer s) <= String.length s.
Proof.
  split; [| apply finditer_from_count].
  apply Forall_forall. intros m Hin.
  destruct (finditer_from_sound _ s m Hin) as [[pre [post Hs]] Hl].
  split; [| exact Hl].
  rewrite Hs. apply occurs_append.
Qed.

End ScanSound.

(* ------------------------------------------------------------------ *)
(** ** The effects and the text of the image extractor                 *)
(* ------------------------------------------------------------------ *)

Section Extractor.

Import TestApp Refs.

Local Open Scope string_scope.

Variable serpapi_api_key : option string.
Variable serpapi_search : string -> string -> search_outcome.
Variable st_image_ok : string -> string -> bool.

Local Notation "'display_images'" :=
  (display_images_from_markdown serpapi_api_key serpapi_search st_image_ok).

Lemma intersperse_empty (s : string) : Py.intersperse "" s = s.
Proof.
  induction s as [|c s IH]; [reflexivity |].
  cbn [Py.intersperse append]. now rewrite IH.
Qed.

Lemma replace_from_empty_length (old : string) (fuel : nat) :
  forall s,
    String.length (Py.replace_from fuel old "" s) <= String.length s.
Proof.
  induction fuel as [|fuel IH]; intro s; [cbn; lia |].
  rewrite replace_from_S.
  destruct (Py.strip_prefix old s) as [rest|] eqn:E.
  - apply strip_prefix_length in E. specialize (IH rest).
    cbn [append]. lia.
  - destruct s as [|c s]; [cbn; lia |].
    specialize (IH s). cbn [String.length]. lia.
Qed.

Lemma replace_empty_length (old s : string) :
  String.length (Py.replace old "" s) <= String.length s.
Proof.
  unfold Py.replace. destruct (old =? "").
  - rewrite intersperse_empty. lia.
  - apply replace_from_empty_length.
Qed.

Lemma loop_text_length (ms : list Re.image_match) :
  forall trace text,
    String.length
      (snd (fold_left (process_match st_image_ok) ms (trace, text)))
    <= String.length text.
Proof.
  induction ms as [|m ms IH]; intros trace text; cbn [fold_left].
  - cbn [snd]. lia.
  - rewrite process_match_unfold. cbn [fst snd].
    destruct (displays st_image_ok m).
    + etransitivity; [apply IH | apply replace_empty_length].
    + apply IH.
Qed.

Lemma loop_text_same (ms : list Re.image_match) :
  forall trace text,
    filter (displays st_image_ok) ms = [] ->
    snd (fold_left (process_match st_image_ok) ms (trace, text)) = text.
Proof.
  induction ms as [|m ms IH]; intros trace text H; cbn [fold_left].
  - reflexivity.
  - rewrite process_match_unfold. cbn [filter] in H.
    destruct (displays st_image_ok m); [discriminate H | now apply IH].
Qed.

(** The extractor only deletes: the text it returns is never longer than
    the text it was given, and it is that text when no reference
    displays. *)
Theorem extractor_text_never_grows
  (markdown_text : string) (destination : option string) :
  String.length (snd (display_images markdown_text destination))
  <= String.length markdown_text
  /\ (filter (displays st_image_ok) (Re.finditer markdown_text) = [] ->
      snd (display_images markdown_text destination) = markdown_text).
Proof.
  unfold display_images_from_markdown; cbv zeta.
  split; [apply loop_text_length | apply loop_text_same].
Qed.

(** A text with a reference is never searched for: the page shows the
    references that display, in their order, and nothing else. *)
Theorem references_suppress_search
  (markdown_text : string) (destination : option string) :
  Re.finditer markdown_text <> [] ->
  fst (display_images markdown_text destination)
  = map shown (filter (displays st_image_ok) (Re.finditer markdown_text)).
Proof.
  intro Hrefs. unfold display_images_from_markdown; cbv zeta.
  rewrite loop_trace.
  destruct (Re.finditer markdown_text) as [|m ms]; [congruence |].
  reflexivity.
Qed.

Lemma search_images_warnings (destination api_key : string) :
  List.length
    (filter More.is_warning
       (search_images serpapi_search st_image_ok destination api_key))
  <= 1.
Proof.
  unfold search_images; cbv zeta.
  destruct (serpapi_search _ api_key) as [e | [images_results|]];
    [cbn; lia | | cbn; lia].
  destruct (show_results_trace st_image_ok destination
              (combine (seq 0 (List.length (firstn 3 images_results)))
                 (firstn 3 images_results))
              [requests_get "https://serpapi.com/search"
                 (destination ++ " travel attractions") "isch" api_key])
    as [images [Hfold [_ Himg]]].
  rewrite Hfold, filter_app, length_app.
  assert (Hnone : filter More.is_warning images = []).
  { clear Hfold. induction images as [|e images IH]; [reflexivity |].
    cbn [forallb] in Himg. apply andb_prop in Himg.
    destruct Himg as [He Himg].
    destruct e; try discriminate He. cbn [filter More.is_warning].
    now apply IH. }
  rewrite Hnone. cbn. lia.
Qed.

Lemma shown_counts (ms : list Re.image_match) :
  filter is_request (map shown ms) = []
  /\ filter More.is_warning (map shown ms) = []
  /\ List.length (filter is_image (map shown ms)) = List.length ms.
Proof.
  induction ms as [|m ms [IH1 [IH2 IH3]]]; [repeat split |].
  cbn [map filter shown is_request More.is_warning is_image List.length].
  repeat split; try assumption. now rewrite IH3.
Qed.

(** Whatever the text, the destination and the environment: at most one
    search, a warning only after a search and at most one, and no more
    images than three or the number of references. *)
Theorem extractor_effect_counts
  (markdown_text : string) (destination : option string) :
  List.length
    (filter is_request (fst (display_images markdown_text destination))) <= 1
  /\ List.length
       (filter More.is_warning
          (fst (display_images markdown_text destination)))
     <= List.length
          (filter is_request (fst (display_images markdown_text destination)))
  /\ List.length
       (filter is_image (fst (display_images markdown_text destination)))
     <= Nat.max 3 (List.length (Re.finditer markdown_text)).
Proof.
  unfold display_images_from_markdown; cbv zeta.
  rewrite loop_trace.
  set (ms := Re.finditer markdown_text).
  destruct (shown_counts (filter (displays st_image_ok) ms))
    as [Hreq [Hwarn Himg]].
  pose proof (filter_length_le (displays st_image_ok) ms) as Hle.
  rewrite !filter_app, !length_app, Hreq, Hwarn, Himg.
  cbn [List.length]. rewrite !Nat.add_0_r.
  set (d := if negb (Py.truthy_opt destination)
            then Re.search_destination markdown_text else destination).
  set (displayed := filter (displays st_image_ok) ms) in *.
  clearbody displayed d.
  destruct ms as [|m ms'].
  - cbn [List.length] in *.
    destruct d as [dest|]; [| cbn; lia].
    destruct serpapi_api_key as [k|]; [| cbn; lia].
    destruct (Py.truthy dest && Py.truthy k); [| cbn; lia].
    destruct (search_images_trace serpapi_search st_image_ok dest k)
      as [Hr Hi].
    pose proof (search_images_warnings dest k) as Hw.
    rewrite Hr. cbn [List.length]. lia.
  - cbn [List.length] in Hle.
    destruct d, serpapi_api_key; cbn [filter List.length]; lia.
Qed.

End Extractor.

(** A text with one reference: nothing is searched, the image is shown. *)
Lemma references_suppress_search_witness :
  Re.finditer "See ![Louvre](http://img/l.png) there" <> []
  /\ fst (TestApp.display_images_from_markdown (Some "key")
            (fun _ _ => TestApp.search_json None) (fun _ _ => true)
            "See ![Louvre](http://img/l.png) there" (Some "Paris"))
     = [TestApp.st_image "http://img/l.png" "Louvre"].
Proof.
  assert (H : Re.finditer "See ![Louvre](http://img/l.png) there" <> [])
    by (vm_compute; discriminate).
  split; [exact H |].
  rewrite (references_suppress_search (Some "key")
             (fun _ _ => TestApp.search_json None) (fun _ _ => true)
             "See ![Louvre](http://img/l.png) there" (Some "Paris") H).
  reflexivity.
Defined.

(* ------------------------------------------------------------------ *)
(** ** The prompt of [test.py] and the pattern that reads it           *)
(* ------------------------------------------------------------------ *)

Section PromptPattern.

Import Refs.

Variable date : Type.
Variable strftime : date -> string.

Local Open Scope string_scope.

Lemma lazy_for_unfold (s : string) :
  Re.lazy_for s
  = match Py.strip_prefix " for" s with
    | Some _ => Some ""
    | None =>
        match s with
        | "" => None
        | String c s' =>
            if Re.is_newline c then None
            else match Re.lazy_for s' with
                 | Some g => Some (String c g)
                 | None => None
                 end
        end
    end.
Proof. destruct s; reflexivity. Qed.

Lemma search_destination_unfold (s : string) :
  Re.search_destination s
  = match
      match Py.strip_prefix "Plan a trip to " s with
      | Some r => Re.lazy_for r
      | None => None
      end
    with
    | Some g => Some g
    | None =>
        match s with
        | "" => None
        | String _ s' => Re.search_destination s'
        end
    end.
Proof. destruct s; reflexivity. Qed.

(** [" for"] cannot start inside a text that does not hold it and end in
    the [" for"] that follows: its first character is its only space. *)
Lemma for_straddle (c : ascii) (s rest : string) :
  Py.strip_prefix " for" (String c s) = None ->
  Py.strip_prefix " for" (String c s ++ " for" ++ rest) = None.
Proof.
  cbn [append Py.strip_prefix].
  destruct (" " =? c)%char; [| reflexivity].
  destruct s as [|c2 s]; [reflexivity |].
  cbn [append Py.strip_prefix].
  destruct ("f" =? c2)%char; [| reflexivity].
  destruct s as [|c3 s]; [reflexivity |].
  cbn [append Py.strip_prefix].
  destruct ("o" =? c3)%char; [| reflexivity].
  destruct s as [|c4 s]; [reflexivity |].
  cbn [append Py.strip_prefix].
  destruct ("r" =? c4)%char; [discriminate | reflexivity].
Qed.

Lemma lazy_for_exact (d rest : string) :
  lacks "010" d = true ->
  More.occurs " for" d = false ->
  Re.lazy_for (d ++ " for" ++ rest) = Some d.
Proof.
  induction d as [|c d IH]; intros Hnl Hfor.
  - change ("" ++ " for" ++ rest) with (" for" ++ rest).
    now rewrite lazy_for_unfold, strip_prefix_append.
  - rewrite occurs_unfold in Hfor.
    destruct (Py.strip_prefix " for" (String c d)) eqn:E; [discriminate |].
    apply lacks_cons in Hnl. destruct Hnl as [Hc Hnl].
    rewrite lazy_for_unfold, (for_straddle c d rest E).
    change (String c d ++ " for" ++ rest)
      with (String c (d ++ " for" ++ rest)).
    cbv beta iota. unfold Re.is_newline. rewrite Hc.
    now rewrite (IH Hnl Hfor).
Qed.

Lemma construct_query_prefix (f : TestForm.form date) :
  Py.truthy (TestForm.destination f) = true ->
  exists rest,
    TestForm.construct_query date strftime f
    = "Plan a trip to " ++ TestForm.destination f ++ " for" ++ rest.
Proof.
  intro Hd. unfold TestForm.construct_query; cbv zeta.
  rewrite Hd. cbn [negb].
  destruct (Py.truthy (TestForm.origin_city date f)),
    (TestForm.interests date f),
    (negb (TestForm.accommodation date f =? "Any")),
    (TestForm.include_images date f),
    (Py.truthy (TestForm.additional_notes date f));
    rewrite !append_assoc; eexists; reflexivity.
Qed.

(** The pattern ["Plan a trip to (.*?) for"] of the image extractor reads
    back, from a prompt built by [construct_query], the destination the
    prompt was built with, when that destination is one line and does not
    itself hold [" for"]. *)
Theorem prompt_names_destination (f : TestForm.form date) :
  Py.truthy (TestForm.destination f) = true ->
  lacks "010" (TestForm.destination f) = true ->
  More.occurs " for" (TestForm.destination f) = false ->
  Re.search_destination (TestForm.construct_query date strftime f)
  = Some (TestForm.destination f).
Proof.
  intros Hd Hnl Hfor.
  destruct (construct_query_prefix f Hd) as [rest Hq]. rewrite Hq.
  rewrite search_destination_unfold, strip_prefix_append.
  now rewrite (lazy_for_exact _ rest Hnl Hfor).
Qed.

(** Without the request for images, the prompt of [test.py] is the prompt
    of [globe.py] for the same fields; with it, the two differ. *)
Theorem prompts_of_test_and_globe
  (origin_city destination : string) (start_date end_date : date)
  (travelers : nat) (budget_option : string) (interests : list string)
  (accommodation additional_notes : string) :
  TestForm.construct_query date strftime
    (TestForm.mk_form origin_city destination start_date end_date travelers
       budget_option interests accommodation false additional_notes)
  = Globe.construct_query date strftime
      (Globe.mk_form origin_city destination start_date end_date travelers
         budget_option interests accommodation additional_notes)
  /\ (destination <> "" ->
      String.length
        (TestForm.construct_query date strftime
           (TestForm.mk_form origin_city destination start_date end_date
              travelers budget_option interests accommodation true
              additional_notes))
      = 100
        + String.length
            (Globe.construct_query date strftime
               (Globe.mk_form origin_city destination start_date end_date
                  travelers budget_option interests accommodation
                  additional_notes))).
Proof.
  split; [reflexivity |].
  intro Hd. apply truthy_true in Hd.
  unfold TestForm.construct_query, Globe.construct_query; cbv zeta.
  cbn [TestForm.destination Globe.destination TestForm.include_images
       TestForm.origin_city Globe.origin_city TestForm.interests
       Globe.interests TestForm.accommodation Globe.accommodation
       TestForm.additional_notes Globe.additional_notes
       TestForm.start_date TestForm.end_date Globe.start_date Globe.end_date
       TestForm.travelers Globe.travelers TestForm.budget_option
       Globe.budget_option].
  rewrite Hd. cbn [negb].
  change TestForm.budget_map with Globe.budget_map.
  destruct (Py.truthy origin_city), interests,
    (negb (accommodation =? "Any")), (Py.truthy additional_notes);
    rewrite !length_append; cbn [String.length]; lia.
Qed.

End PromptPattern.

(** A trip to Paris: the pattern finds "Paris" in the prompt. *)
Lemma prompt_names_destination_witness :
  let paris :=
    TestForm.mk_form "Delhi" "Paris" tt tt 2 "" ["food"] "Hotel" true "" in
  Py.truthy (TestForm.destination paris) = true
  /\ Refs.lacks "010" (TestForm.destination paris) = true
  /\ More.occurs " for" (TestForm.destination paris) = false
  /\ Re.search_destination
       (TestForm.construct_query unit (fun _ => "Jan 01, 2025") paris)
     = Some "Paris".
Proof.
  intro paris.
  split; [reflexivity |]. split; [reflexivity |]. split; [reflexivity |].
  exact (prompt_names_destination unit (fun _ => "Jan 01, 2025") paris
           eq_refl eq_refl eq_refl).
Defined.

(* ------------------------------------------------------------------ *)
(** ** [main.py]: the flight tools and the list of tools               *)
(* ------------------------------------------------------------------ *)

Section FlightSetup.

Import Main MainConfig.

Local Open Scope string_scope.

Variable client : Type.
Variable data : Type.
Variable Client : string -> string -> init_outcome client.
Variable locations_get : client -> string -> api_outcome data.
Variable flight_offers_search_get :
  client -> string -> string -> string -> option string -> nat -> api_outcome data.
Variable locations_by_id_get : client -> string -> api_outcome data.

(** When [Client(...)] raises a [ValueError], the SDK is still built, and
    each of its three operations returns the error object that quotes the
    message of the exception, without calling the API. *)
Theorem init_value_error_reported (client_id client_secret e : string) :
  Py.truthy client_id = true ->
  Py.truthy client_secret = true ->
  Client client_id client_secret = init_ValueError e ->
  exists sdk,
    init Client (Some client_id) (Some client_secret) = Returned sdk
    /\ (forall keyword,
          search_airports locations_get sdk keyword
          = Returned
              (error_dict (Some ("Error initializing Amadeus client: " ++ e))))
    /\ (forall origin destination departure_date return_date adults,
          search_flights flight_offers_search_get sdk
            origin destination departure_date return_date adults
          = Returned
              (error_dict (Some ("Error initializing Amadeus client: " ++ e))))
    /\ (forall airport_code,
          get_airport_info locations_by_id_get sdk airport_code
          = Returned
              (error_dict (Some ("Error initializing Amadeus client: " ++ e)))).
Proof.
  intros Hid Hsecret HClient.
  exists (mk_sdk None (Some ("Error initializing Amadeus client: " ++ e))).
  split.
  - unfold init. now rewrite Hid, Hsecret, HClient.
  - repeat split.
Qed.

(** A return date that is the empty string is no return date: the search
    is the one-way search, and the API is never handed the empty date. *)
Theorem empty_return_date_is_one_way
  (sdk : AmadeusFlightToolsSDK client)
  (origin destination departure_date : string) (adults : nat) :
  search_flights flight_offers_search_get sdk
    origin destination departure_date (Some "") adults
  = search_flights flight_offers_search_get sdk
      origin destination departure_date None adults
  /\ (forall c error return_date,
        search_flights flight_offers_search_get (mk_sdk (Some c) error)
          origin destination departure_date return_date adults
        = guarded
            (flight_offers_search_get c origin destination departure_date
               (match return_date with
                | Some "" => None
                | other => other
                end) adults)).
Proof.
  split; [reflexivity |].
  intros c error [[|a r]|]; reflexivity.
Qed.

Lemma init_with_credentials (client_id client_secret : option string)
  (sdk : AmadeusFlightToolsSDK client) :
  Py.truthy_opt client_id && Py.truthy_opt client_secret = true ->
  init Client client_id client_secret = Returned sdk ->
  error_message sdk <> Some "Amadeus client credentials are missing".
Proof.
  intros Hboth Hinit. unfold init in Hinit.
  destruct client_id as [id|], client_secret as [secret|];
    try discriminate Hboth.
  - cbn [Py.truthy_opt] in Hboth. rewrite Hboth in Hinit.
    destruct (Client id secret) as [c | e | e]; try discriminate Hinit;
      injection Hinit as <-; cbn [error_message]; discriminate.
  - cbn [Py.truthy_opt] in Hboth. now rewrite andb_false_r in Hboth.
Qed.


(** Building the list of tools raises exactly when both credentials are
    given and [Client(...)] raises something that is no [ValueError]. *)
Theorem tools_list_raises_iff
  (exa_api_key amadeus_client_id amadeus_client_secret : option string)
  (e : string) :
  create_tools_list Client exa_api_key amadeus_client_id amadeus_client_secret
  = Raised e
  <-> exists id secret,
        amadeus_client_id = Some id /\ amadeus_client_secret = Some secret
        /\ Py.truthy id = true /\ Py.truthy secret = true
        /\ Client id secret = init_other e.
Proof.
  unfold create_tools_list, init; cbv zeta.
  destruct amadeus_client_id as [id|], amadeus_client_secret as [secret|];
    cbn [Py.truthy_opt andb].
  - destruct (Py.truthy id) eqn:Hid, (Py.truthy secret) eqn:Hsecret;
      cbn [andb].
    + destruct (Client id secret) as [c | e' | e'] eqn:HC; split.
      * discriminate.
      * intros [i [s [Hi [Hs [_ [_ H]]]]]].
        injection Hi as <-. injection Hs as <-. congruence.
      * discriminate.
      * intros [i [s [Hi [Hs [_ [_ H]]]]]].
        injection Hi as <-. injection Hs as <-. congruence.
      * intro H. injection H as ->. now exists id, secret.
      * intros [i [s [Hi [Hs [_ [_ H]]]]]].
        injection Hi as <-. injection Hs as <-. congruence.
    + split; [discriminate |].
      intros [i [s [Hi [Hs [_ [H _]]]]]].
      injection Hs as <-. congruence.
    + split; [discriminate |].
      intros [i [s [Hi [Hs [H _]]]]].
      injection Hi as <-. congruence.
    + split; [discriminate |].
      intros [i [s [Hi [Hs [H _]]]]].
      injection Hi as <-. congruence.
  - rewrite andb_false_r. split; [discriminate |].
    intros [i [s [_ [Hs _]]]]. discriminate Hs.
  - split; [discriminate |]. intros [i [s [Hi _]]]. discriminate Hi.
  - split; [discriminate |]. intros [i [s [Hi _]]]. discriminate Hi.
Qed.

(** No warning about the environment is shown exactly when the four
    variables are set and not empty; and then, unless [Client(...)] raises
    what is no [ValueError], the agent is given all five tools. *)
Theorem startup_warning_none_iff
  (groq_api_key exa_api_key amadeus_client_id amadeus_client_secret
     : option string) :
  (startup_warning groq_api_key exa_api_key amadeus_client_id
     amadeus_client_secret = None
   <-> Py.truthy_opt groq_api_key && Py.truthy_opt exa_api_key
       && Py.truthy_opt amadeus_client_id
       && Py.truthy_opt amadeus_client_secret = true)
  /\ (startup_warning groq_api_key exa_api_key amadeus_client_id
        amadeus_client_secret = None ->
      forall tools,
        create_tools_list Client exa_api_key amadeus_client_id
          amadeus_client_secret = Returned tools ->
        List.length tools = 5).
Proof.
  assert (Hiff :
    startup_warning groq_api_key exa_api_key amadeus_client_id
      amadeus_client_secret = None
    <-> Py.truthy_opt groq_api_key && Py.truthy_opt exa_api_key
        && Py.truthy_opt amadeus_client_id
        && Py.truthy_opt amadeus_client_secret = true).
  { unfold startup_warning, missing_keys; cbv zeta.
    destruct (Py.truthy_opt groq_api_key), (Py.truthy_opt exa_api_key),
      (Py.truthy_opt amadeus_client_id),
      (Py.truthy_opt amadeus_client_secret);
      cbn [negb andb orb app]; split; (reflexivity || discriminate). }
  split; [exact Hiff |].
  intros Hnone tools Htools. apply Hiff in Hnone.
  apply andb_prop in Hnone. destruct Hnone as [Hnone Hsecret].
  apply andb_prop in Hnone. destruct Hnone as [Hnone Hid].
  apply andb_prop in Hnone. destruct Hnone as [_ Hexa].
  unfold create_tools_list in Htools; cbv zeta in Htools.
  rewrite Hid, Hsecret in Htools. cbn [andb] in Htools.
  destruct exa_api_key as [k|]; [| discriminate Hexa].
  cbn [Py.truthy_opt] in Hexa. rewrite Hexa in Htools.
  destruct (init Client amadeus_client_id amadeus_client_secret);
    [| discriminate Htools].
  injection Htools as <-. reflexivity.
Qed.

End FlightSetup.

(** A client library that rejects the credentials with a [ValueError]. *)
Lemma init_value_error_reported_witness :
  exists sdk : Main.AmadeusFlightToolsSDK unit,
    Main.init (fun _ _ => Main.init_ValueError "bad hostname")
      (Some "id") (Some "secret") = Main.Returned sdk
    /\ Main.search_airports (data:=string)
         (fun _ _ => Main.api_data "unused") sdk "paris"
       = Main.Returned
           (Main.error_dict
              (Some "Error initializing Amadeus client: bad hostname")).
Proof.
  destruct (init_value_error_reported unit string
              (fun _ _ => Main.init_ValueError "bad hostname")
              (fun _ _ => Main.api_data "unused")
              (fun _ _ _ _ _ _ => Main.api_data "unused")
              (fun _ _ => Main.api_data "unused")
              "id" "secret" "bad hostname" eq_refl eq_refl eq_refl)
    as [sdk [Hinit [Hairports _]]].
  exists sdk. split; [exact Hinit | exact (Hairports "paris")].
Defined.


(* ------------------------------------------------------------------ *)
(** ** [main.py]: the history and what the page shows of it            *)
(* ------------------------------------------------------------------ *)

Section HistoryShape.

Import Main.

Variable date : Type.
Variable strftime : date -> string.

Local Open Scope string_scope.

Lemma display_from (n : nat) :
  forall (rest pre : list message) (k : nat),
    List.length rest <= n ->
    List.length pre = 2 * k ->
    flat_map (display_at (pre ++ rest))
      (map (fun j => 2 * j) (seq k (Nat.div2 (List.length rest + 1))))
    = More.pair_up rest.
Proof.
  induction n as [|n IH]; intros rest pre k Hn Hpre.
  - destruct rest; [reflexivity | cbn [List.length] in Hn; lia].
  - destruct rest as [|q [|r rest']]; [reflexivity | |].
    + assert (E : Nat.div2 (List.length [q] + 1) = 1) by reflexivity.
      rewrite E. cbn [seq map flat_map More.pair_up]. rewrite app_nil_r.
      unfold display_at.
      replace (2 * k + 1 <? List.length (pre ++ [q]))%nat with false;
        [reflexivity |].
      symmetry. apply Nat.ltb_ge. rewrite length_app. cbn [List.length]. lia.
    + assert (E : Nat.div2 (List.length (q :: r :: rest') + 1)
                  = S (Nat.div2 (List.length rest' + 1))) by reflexivity.
      rewrite E. cbn [seq map flat_map More.pair_up].
      assert (Hat : display_at (pre ++ q :: r :: rest') (2 * k)
                    = [travel_plan (content q) (content r)]).
      { unfold display_at.
        replace (2 * k + 1 <? List.length (pre ++ q :: r :: rest'))%nat
          with true
          by (symmetry; apply Nat.ltb_lt; rewrite length_app;
              cbn [List.length]; lia).
        rewrite !nth_error_app2 by lia.
        replace (2 * k - List.length pre) with 0 by lia.
        replace (2 * k + 1 - List.length pre) with 1 by lia.
        reflexivity. }
      rewrite Hat. cbn [app]. f_equal.
      replace (pre ++ q :: r :: rest')%list
        with ((pre ++ [q; r]) ++ rest')%list
        by (rewrite <- app_assoc; reflexivity).
      apply IH.
      * cbn [List.length] in Hn. lia.
      * rewrite length_app. cbn [List.length]. lia.
Qed.

Lemma pair_up_length :
  forall messages : list message,
    List.length (More.pair_up messages) = Nat.div2 (List.length messages).
Proof.
  fix IH 1. intros [|q [|r rest]]; [reflexivity | reflexivity |].
  cbn [More.pair_up List.length Nat.div2]. f_equal. apply IH.
Qed.

(** The page reads the history two entries at a time: entries [2k] and
    [2k+1] give the [k]-th plan, whatever their roles, and a history of
    [n] entries gives [n / 2] plans. *)
Theorem display_reads_pairs (messages : list message) :
  display_travel_plans messages = More.pair_up messages
  /\ List.length (display_travel_plans messages)
     = Nat.div2 (List.length messages).
Proof.
  assert (H : display_travel_plans messages = More.pair_up messages).
  { destruct messages as [|m ms]; [reflexivity |].
    unfold display_travel_plans, range_step2.
    exact (display_from (List.length (m :: ms)) (m :: ms) [] 0
             (le_n _) eq_refl). }
  split; [exact H |]. rewrite H. apply pair_up_length.
Qed.

Lemma construct_query_nonempty (f : form date) :
  Py.truthy (destination f) = true ->
  Py.truthy (construct_query date strftime f) = true.
Proof.
  intro Hd. apply truthy_true. intro H.
  unfold construct_query in H. rewrite Hd in H.
  cbn [negb] in H. cbv zeta in H.
  apply append_eq_nil in H. discriminate H.
Qed.

(** A run of the script never takes an entry out of the history or
    changes one: it appends nothing, the prompt, or the prompt and the
    answer; and nothing when the button was not pressed or no destination
    was given, whatever the agent would do. *)
Theorem history_only_grows
  (agent_run : string -> agent_outcome) (generate_plan : bool)
  (f : form date) (messages : list message) :
  exists added,
    fst (run date strftime agent_run generate_plan f messages)
    = (messages ++ added)%list
    /\ (added = []
        \/ added = [mk_message user (construct_query date strftime f)]
        \/ exists response,
             added = [mk_message user (construct_query date strftime f);
                      mk_message assistant response])
    /\ (generate_plan = false \/ destination f = "" -> added = []).
Proof.
  unfold run, generate_plan_handler; cbv zeta.
  destruct generate_plan.
  - destruct (Py.truthy (destination f)) eqn:Hd; cbn [andb].
    + unfold date_truthy. cbn [andb].
      destruct (agent_run (construct_query date strftime f)) as [c | e].
      * eexists. cbn [fst]. rewrite <- app_assoc.
        split; [reflexivity |]. split.
        -- right. right. eexists. reflexivity.
        -- intros [H | H]; [discriminate H |].
           apply truthy_true in Hd. contradiction.
      * eexists. cbn [fst]. split; [reflexivity |]. split.
        -- right. left. reflexivity.
        -- intros [H | H]; [discriminate H |].
           apply truthy_true in Hd. contradiction.
    + exists []. cbn [fst]. rewrite app_nil_r. repeat split. now left.
  - exists []. cbn [fst]. rewrite app_nil_r. repeat split. now left.
Qed.

Lemma turns_app_user (q : string) (tail : list message) :
  Py.truthy q = true ->
  More.turns true tail = true ->
  forall (ms : list message) (b : bool),
    More.turns b ms = true ->
    More.turns b (ms ++ mk_message user q :: tail) = true.
Proof.
  intros Hq Htail. induction ms as [|m ms IH]; intros b Hms.
  - cbn [app More.turns msg_role content]. now rewrite Hq, Htail.
  - cbn [app More.turns] in Hms |- *.
    destruct (msg_role m); apply andb_prop in Hms; destruct Hms as [H1 H2];
      rewrite H1; cbn [andb]; now apply IH.
Qed.

(** Whatever the agent does, in every history a session can hold each
    entry of the user is a prompt that is not empty, the first entry is
    the user's, and each entry of the assistant comes right after one of
    the user. *)
Theorem reachable_history_turns (messages : list message) :
  reachable date strftime messages ->
  More.turns false messages = true.
Proof.
  induction 1 as [| agent_run generate_plan f messages Hreach IH];
    [reflexivity |].
  unfold run, generate_plan_handler; cbv zeta.
  destruct generate_plan; [| exact IH].
  destruct (Py.truthy (destination f)) eqn:Hd; cbn [andb]; [| exact IH].
  unfold date_truthy. cbn [andb].
  pose proof (construct_query_nonempty f Hd) as Hq.
  destruct (agent_run (construct_query date strftime f)) as [c | e];
    cbn [fst].
  - rewrite <- app_assoc. cbn [app].
    now apply turns_app_user.
  - now apply turns_app_user.
Qed.

End HistoryShape.

(** The history after an agent that raised and then answered. *)
Lemma reachable_history_turns_witness :
  let rome := Main.mk_form "DEL" "Rome" tt tt 2 "" [] "Any" "" in
  let strftime := fun _ : unit => "Jan 01, 2025" in
  let first :=
    fst (Main.run unit strftime (fun _ => Main.agent_raised "timeout")
           true rome []) in
  let second :=
    fst (Main.run unit strftime
           (fun _ => Main.agent_response (Some "plan")) true rome first) in
  Main.reachable unit strftime second
  /\ List.length second = 3
  /\ More.turns false second = true.
Proof.
  intros rome strftime first second.
  assert (H : Main.reachable unit strftime second).
  { apply Main.reachable_run. apply Main.reachable_run.
    apply Main.reachable_init. }
  split; [exact H |]. split; [reflexivity |].
  exact (reachable_history_turns unit strftime second H).
Defined.

(* ------------------------------------------------------------------ *)
(** ** The name of the PDF                                             *)
(* ------------------------------------------------------------------ *)

Section FileName.

Import Refs.

Local Open Scope string_scope.

Lemma replace_space (s : string) :
  lacks " " (Py.replace " " "_" s) = true
  /\ String.length (Py.replace " " "_" s) = String.length s.
Proof.
  assert (Hold : " " <> "") by discriminate.
  induction s as [|c s [IHl IHn]].
  - rewrite replace_nil by exact Hold. split; reflexivity.
  - destruct (Ascii.eqb_spec c " ") as [-> | Hc].
    + rewrite (replace_match " " "_" (String " " s) s Hold eq_refl).
      cbn [append lacks String.length]. rewrite IHl, IHn. split; reflexivity.
    + apply Ascii.eqb_neq in Hc.
      rewrite (replace_skip " " "_" c s Hold
                 (strip_prefix_head_neq " " c "" s Hc)).
      cbn [lacks String.length]. rewrite Hc, IHl, IHn. split; reflexivity.
Qed.

(** The name of the PDF holds no space when the date stamp holds none:
    every space of the destination has become an underscore, one for
    one. *)
Theorem filename_has_no_space (destination today_date : string) :
  lacks " " today_date = true ->
  lacks " " (Page.filename destination today_date) = true
  /\ (destination <> "" ->
      String.length (Page.filename destination today_date)
      = String.length destination + 11 + String.length today_date + 4).
Proof.
  intro Hdate. unfold Page.filename, Page.destination_name.
  destruct (replace_space destination) as [Hl Hn].
  split.
  - rewrite !lacks_append, Hdate.
    destruct (Py.truthy destination); [rewrite Hl |]; reflexivity.
  - intro Hd. apply truthy_true in Hd. rewrite Hd.
    rewrite !length_append, Hn. cbn [String.length]. lia.
Qed.

End FileName.

(** "New York City" on 3 November 2026. *)
Lemma filename_has_no_space_witness :
  Refs.lacks " " "20261103" = true
  /\ Page.filename "New York City" "20261103"
     = "New_York_City_itinerary_20261103.pdf"
  /\ Refs.lacks " " (Page.filename "New York City" "20261103") = true.
Proof.
  split; [reflexivity |]. split; [reflexivity |].
  exact (proj1 (filename_has_no_space "New York City" "20261103" eq_refl)).
Defined.

(* ------------------------------------------------------------------ *)
(** ** [sp.py]                                                         *)
(* ------------------------------------------------------------------ *)

Section SpScript.

Import Sp.

Local Open Scope string_scope.

Variable serpapi_api_key : option string.
Variable serpapi_search : string -> string -> search_outcome.
Variable st_image_raises : string -> string -> option string.

Local Notation "'show'" := (show_result st_image_raises).

(** One result adds no request and no error, and at most one image. *)
Lemma sp_show_result_step (st : list effect * option string)
  (ir : nat * img_result) :
  filter is_request (fst (show st ir)) = filter is_request (fst st)
  /\ filter is_error (fst (show st ir)) = filter is_error (fst st)
  /\ List.length (filter is_image (fst (show st ir)))
     <= List.length (filter is_image (fst st)) + 1.
Proof.
  unfold show_result; cbv zeta.
  destruct (snd st); [repeat split; lia |].
  destruct (original_or_thumbnail (snd ir)) as [url|];
    [destruct (Py.truthy url);
       [destruct (st_image_raises url _) |] |];
    cbn [fst]; rewrite ?filter_app, ?length_app;
    cbn [filter is_request is_error is_image List.length];
    rewrite ?app_nil_r; repeat split; lia.
Qed.

Lemma sp_show_results (results : list (nat * img_result)) :
  forall st,
    filter is_request (fst (fold_left show results st))
    = filter is_request (fst st)
    /\ filter is_error (fst (fold_left show results st))
       = filter is_error (fst st)
    /\ List.length (filter is_image (fst (fold_left show results st)))
       <= List.length (filter is_image (fst st)) + List.length results.
Proof.
  induction results as [|ir results IH]; intro st; cbn [fold_left].
  - repeat split. cbn [List.length]. lia.
  - destruct (IH (show st ir)) as [H1 [H2 H3]].
    destruct (sp_show_result_step st ir) as [S1 [S2 S3]].
    rewrite H1, H2, S1, S2. repeat split. cbn [List.length]. lia.
Qed.

(** When [st.image] never raises, every result puts one image or one
    warning on the page, and the loop ends without an exception. *)
Lemma sp_show_results_exact (results : list (nat * img_result)) :
  (forall url caption, st_image_raises url caption = None) ->
  forall trace,
    snd (fold_left show results (trace, None)) = None
    /\ List.length
         (filter is_image (fst (fold_left show results (trace, None))))
       + List.length
           (filter is_no_url_warning
              (fst (fold_left show results (trace, None))))
       = List.length (filter is_image trace)
         + List.length (filter is_no_url_warning trace)
         + List.length results.
Proof.
  intro Hok.
  induction results as [|ir results IH]; intro trace; cbn [fold_left].
  - cbn [fst snd List.length]. split; [reflexivity | lia].
  - unfold show_result at 2 4 6; cbv zeta. cbn [fst snd].
    destruct (original_or_thumbnail (snd ir)) as [url|];
      [destruct (Py.truthy url); [rewrite Hok |] |];
      match goal with
      | |- context [fold_left _ results (?t, None)] =>
          destruct (IH t) as [Hs Hc]; rewrite Hs, Hc
      end;
      rewrite ?filter_app, ?length_app;
      cbn [filter is_no_url_warning is_image List.length];
      (split; [reflexivity | lia]).
Qed.

Lemma first3_length (results : list img_result) :
  List.length
    (combine (seq 0 (List.length (firstn 3 results))) (firstn 3 results))
  = Nat.min 3 (List.length results).
Proof.
  rewrite length_combine, length_seq, Nat.min_id. apply length_firstn.
Qed.

(** Whatever the key, the search and the page do: the script makes at
    most one request, shows at most three images and at most one error;
    and without a key it makes no request at all. *)
Theorem sp_run_counts (search_query : string) (button : bool) :
  List.length
    (filter is_request
       (run serpapi_api_key serpapi_search st_image_raises
          search_query button)) <= 1
  /\ List.length
       (filter is_image
          (run serpapi_api_key serpapi_search st_image_raises
             search_query button)) <= 3
  /\ List.length
       (filter is_error
          (run serpapi_api_key serpapi_search st_image_raises
             search_query button)) <= 1
  /\ (Py.truthy_opt serpapi_api_key = false ->
      filter is_request
        (run serpapi_api_key serpapi_search st_image_raises
           search_query button) = []).
Proof.
  unfold run; cbv zeta.
  destruct serpapi_api_key as [k|]; [| cbn; repeat split; lia].
  cbn [Py.truthy_opt].
  destruct (Py.truthy k); [| cbn; repeat split; lia].
  destruct button; [| cbn; repeat split; (lia || discriminate)].
  destruct (serpapi_search search_query k) as [e | raw [results|]];
    [cbn; repeat split; (lia || discriminate) |
     | cbn; repeat split; (lia || discriminate)].
  match goal with
  | |- context [fold_left _ ?rs (?t, None)] =>
      destruct (sp_show_results rs (t, None)) as [H1 [H2 H3]];
      pose proof (first3_length results) as Hlen;
      set (r := fold_left _ rs (t, None)) in *
  end.
  cbn [fst] in H1, H2, H3. rewrite Hlen in H3.
  cbn [filter app is_request is_image is_error List.length] in H1, H2, H3.
  assert (Hmin : Nat.min 3 (List.length results) <= 3) by lia.
  destruct (snd r);
    rewrite ?filter_app, ?length_app, ?H1, ?H2;
    cbn [filter is_request is_image is_error List.length app];
    repeat split; try lia; intro Hf; discriminate Hf.
Qed.

(** With a key, a search that answers with a list of results, and a page
    on which every image can be shown: each of the first three results
    gives one image or one warning of a missing address, and the script
    shows no error. *)
Theorem sp_every_result_accounted
  (search_query api_key raw : string) (results : list img_result) :
  serpapi_api_key = Some api_key ->
  Py.truthy api_key = true ->
  serpapi_search search_query api_key = search_json raw (Some results) ->
  (forall url caption, st_image_raises url caption = None) ->
  List.length
    (filter is_image
       (run serpapi_api_key serpapi_search st_image_raises
          search_query true))
  + List.length
      (filter is_no_url_warning
         (run serpapi_api_key serpapi_search st_image_raises
            search_query true))
  = Nat.min 3 (List.length results)
  /\ filter is_error
       (run serpapi_api_key serpapi_search st_image_raises
          search_query true) = [].
Proof.
  intros Hkey Hk Hsearch Hok.
  unfold run; cbv zeta. rewrite Hkey, Hk, Hsearch.
  match goal with
  | |- context [fold_left _ ?rs (?t, None)] =>
      destruct (sp_show_results_exact rs Hok t) as [Hs Hc];
      destruct (sp_show_results rs (t, None)) as [_ [H2 _]];
      pose proof (first3_length results) as Hlen;
      set (r := fold_left _ rs (t, None)) in *
  end.
  rewrite Hs. rewrite Hc, Hlen. cbn [fst] in H2. rewrite H2.
  split; reflexivity.
Qed.

End SpScript.

(** Three results: an image, an entry with a thumbnail only, an entry
    with no address. *)
Lemma sp_every_result_accounted_witness :
  let results :=
    [Sp.mk_img_result (Some "http://a/1.jpg") None (Some "a") (Some "One");
     Sp.mk_img_result None (Some "http://a/2t.jpg") None None;
     Sp.mk_img_result (Some "") None None None;
     Sp.mk_img_result (Some "http://a/4.jpg") None None None] in
  let trace :=
    Sp.run (Some "key") (fun _ _ => Sp.search_json "{...}" (Some results))
      (fun _ _ => None) "Paris travel" true in
  List.length (filter Sp.is_image trace)
  + List.length (filter Sp.is_no_url_warning trace) = 3
  /\ List.length (filter Sp.is_image trace) = 2.
Proof.
  intros results trace. split; [| reflexivity].
  exact (proj1 (sp_every_result_accounted (Some "key")
                  (fun _ _ => Sp.search_json "{...}" (Some results))
                  (fun _ _ => None) "Paris travel" "key" "{...}" results
                  eq_refl eq_refl eq_refl (fun _ _ => eq_refl))).
Defined.
